(** * split_cli.py: navigation and focus core of the two-pane viewer

    A shallow embedding of [src/split_cli.py].  The widgets of the program
    ([ContentView], [FileTree], [MainScreen], [IOCCCViewer]) keep their
    names as modules; the state they share is one record, [App], threaded
    through every handler.  Calls into the terminal toolkit (the scroll
    position setter, [focus()], [blur()], [expand()], [collapse()], the
    cursor movement of the tree widget) and the key bindings the widgets
    inherit from it are not part of the repository and are modelled
    after the specification, each under a comment that says so. *)

From Stdlib Require Import ZArith List Bool Arith Ascii String Lia.
From Stdlib Require Import Sorting.Sorted DecimalString.
From Stdlib Require Import Sorting.Permutation.
Import ListNotations.

Local Open Scope list_scope.
Local Open Scope string_scope.

(** ** Python string operations used by the program *)

Module PyStr.

(** The one-character string ["\n"]. *)
Definition nl : string := String (ascii_of_nat 10) EmptyString.

(** [s.startswith(p)] *)
Definition startswith (s p : string) : bool := String.prefix p s.

(** [s.endswith(suf)]: some tail of [s] is [suf]. *)
Fixpoint endswith (s suf : string) : bool :=
  (s =? suf) ||
  match s with
  | EmptyString => false
  | String _ rest => endswith rest suf
  end.

(** [sub in s] *)
Fixpoint contains (sub s : string) : bool :=
  String.prefix sub s ||
  match s with
  | EmptyString => false
  | String _ rest => contains sub rest
  end.

(** [c.lower()] on one ASCII character: the letters A to Z go to a to z
    and every other character stays as it is. *)
Definition lower_char (c : ascii) : ascii :=
  let n := nat_of_ascii c in
  if (65 <=? n)%nat && (n <=? 90)%nat then ascii_of_nat (n + 32) else c.

(** [s.lower()] on a string of ASCII characters.  Python lowers letters
    beyond ASCII as well; the properties on the order of a listing are
    stated for ASCII names. *)
Fixpoint lower (s : string) : string :=
  match s with
  | EmptyString => EmptyString
  | String c rest => String (lower_char c) (lower rest)
  end.

(** [str(n)] for a non-negative count. *)
Definition str_of_nat (n : nat) : string :=
  NilZero.string_of_uint (Nat.to_uint n).

(** [os.path.basename(p)], that is [p[p.rfind('/') + 1:]].  [after] is
    what follows the last slash seen so far. *)
Fixpoint basename_from (after p : string) : string :=
  match p with
  | EmptyString => after
  | String c rest =>
      if (c =? "/")%char then basename_from rest rest
      else basename_from after rest
  end.

Definition basename (p : string) : string := basename_from p p.

(** [os.path.join(a, b)] for two components. *)
Definition join (a b : string) : string :=
  if startswith b "/" then b
  else if (a =? "") || endswith a "/" then a ++ b
  else a ++ "/" ++ b.

(** The part of [s] from its last ['.'] on, when it has one. *)
Fixpoint from_last_dot (s : string) : option string :=
  match s with
  | EmptyString => None
  | String c rest =>
      match from_last_dot rest with
      | Some t => Some t
      | None => if (c =? ".")%char then Some s else None
      end
  end.

(** [PurePath.suffix] of a file name: [name[i:]] for [i = name.rfind('.')]
    when [0 < i < len(name) - 1], and the empty string otherwise. *)
Definition suffix (name : string) : string :=
  match name with
  | EmptyString => ""
  | String _ rest =>
      match from_last_dot rest with
      | Some t => if (String.length t =? 1)%nat then "" else t
      | None => ""
      end
  end.

(** [x in xs] for a list of strings. *)
Definition mem (x : string) (xs : list string) : bool :=
  existsb (String.eqb x) xs.

End PyStr.

Import PyStr.

(** ** State *)

(** The two panes, ["#file_tree"] and ["#content"]. *)
Inductive Widget : Type := FileTreeW | ContentViewW.

Definition Widget_eqb (a b : Widget) : bool :=
  match a, b with
  | FileTreeW, FileTreeW | ContentViewW, ContentViewW => true
  | _, _ => false
  end.

Set Warnings "-register-all".

(** A node of the tree widget: its label, the ['path'] entry of its [data]
    dictionary ([None] for the root, which has no data), whether it was
    made with [add] ([allow_expand]) or with [add_leaf], its expansion flag
    and its children in the order they were added. *)
Inductive TreeNode : Type :=
  mkNode {
    label : string;
    data : option string;
    allow_expand : bool;
    is_expanded : bool;
    children : list TreeNode
  }.

(** The state of the [ContentView] widget.  [scroll_y], [size_height]
    ([self.size.height], the viewport) and [virtual_height]
    ([self.virtual_size.height], the height of the content) are the
    ScrollState of the specification; [render_text] is the current buffer
    and [displayed] what the child [Static] shows. *)
Record ContentViewState : Type :=
  mkContentView {
    render_text : string;
    displayed : string;
    is_mounted : bool;
    scroll_y : Z;
    size_height : Z;
    virtual_height : Z;
    content_width : string
  }.

(** The state of the [FileTree] widget.  The cursor is held as the path of
    child indices that leads from the root to the highlighted node. *)
Record FileTreeState : Type :=
  mkFileTree {
    root : TreeNode;
    cursor : option (list nat);
    visible : bool;
    tree_width : string;
    tree_display : string
  }.

(** The whole application: both widgets, the widget that holds the
    keyboard focus, and whether the event loop still runs. *)
Record App : Type :=
  mkApp {
    file_tree : FileTreeState;
    content : ContentViewState;
    focused : option Widget;
    running : bool
  }.

Definition with_content (c : ContentViewState) (a : App) : App :=
  mkApp (file_tree a) c (focused a) (running a).

Definition with_file_tree (t : FileTreeState) (a : App) : App :=
  mkApp t (content a) (focused a) (running a).

(** ** Toolkit calls *)

Module Toolkit.

(** Modelled from the spec: the upper end of the scroll range,
    [max(0, contentHeight - viewportHeight)].  The toolkit property
    [max_scroll_y] is not in src/. *)
Definition max_scroll_y (c : ContentViewState) : Z :=
  Z.max 0 (virtual_height c - size_height c).

(** Modelled from the spec: every assignment to [scroll_y] goes through
    the toolkit's validator, which clamps the new value into
    [0 .. max_scroll_y] ("every mutating operation re-clamps").  The
    validator is not in src/. *)
Definition validate_scroll_y (c : ContentViewState) (value : Z) : Z :=
  Z.min (Z.max value 0) (max_scroll_y c).

(** [self.scroll_y = value] *)
Definition set_scroll_y (value : Z) (c : ContentViewState) : ContentViewState :=
  mkContentView (render_text c) (displayed c) (is_mounted c)
    (validate_scroll_y c value) (size_height c) (virtual_height c)
    (content_width c).

(** Modelled from the spec: the rendering surface reports a new viewport
    height and the height of the laid-out content; the scroll position
    is validated against the new range.  Layout is not in src/. *)
Definition layout (viewport contentHeight : Z) (c : ContentViewState)
  : ContentViewState :=
  set_scroll_y (scroll_y c)
    (mkContentView (render_text c) (displayed c) (is_mounted c)
       (scroll_y c) viewport contentHeight (content_width c)).

(** Modelled from the spec: a hidden pane cannot hold focus.  The tree
    can take the focus while the sidebar is visible; the content pane is
    never hidden. *)
Definition focusable (w : Widget) (a : App) : bool :=
  match w with
  | FileTreeW => visible (file_tree a)
  | ContentViewW => true
  end.

(** Modelled from the spec: [w.focus()] makes [w] the one holder of the
    keyboard focus, and is refused when [w] cannot hold it.  [focus] is
    not in src/. *)
Definition focus (w : Widget) (a : App) : App :=
  if focusable w a
  then mkApp (file_tree a) (content a) (Some w) (running a)
  else a.

(** Modelled from the spec: sidebar visibility, when false, forces the
    focus to the content pane.  Once the sidebar has been hidden while
    the tree held the focus, the toolkit hands the focus to the content
    pane.  The hand-over is not in src/. *)
Definition release_hidden (a : App) : App :=
  match focused a with
  | Some FileTreeW =>
      if visible (file_tree a) then a
      else mkApp (file_tree a) (content a) (Some ContentViewW) (running a)
  | _ => a
  end.

(** Modelled from the spec: [w.blur()] takes the focus away from [w] when
    [w] holds it and does nothing otherwise.  [blur] is not in src/. *)
Definition blur (w : Widget) (a : App) : App :=
  match focused a with
  | Some w' =>
      if Widget_eqb w w'
      then mkApp (file_tree a) (content a) None (running a)
      else a
  | None => a
  end.

(** [w.has_focus]: whether [w] is the holder of the focus.  The
    [on_focus] and [on_blur] handlers of [ContentView] store the same
    boolean in the widget. *)
Definition has_focus (w : Widget) (a : App) : bool :=
  match focused a with
  | Some w' => Widget_eqb w w'
  | None => false
  end.

End Toolkit.

(** ** ContentView *)

Module ContentView.

Import Toolkit.

(** [ContentView.update] *)
Definition update (text : string) (c : ContentViewState) : ContentViewState :=
  mkContentView text
    (if is_mounted c then text else displayed c)
    (is_mounted c) (scroll_y c) (size_height c) (virtual_height c)
    (content_width c).

Definition action_scroll_down (c : ContentViewState) : ContentViewState :=
  set_scroll_y (scroll_y c + 1) c.

Definition action_scroll_up (c : ContentViewState) : ContentViewState :=
  set_scroll_y (scroll_y c - 1) c.

Definition action_scroll_home (c : ContentViewState) : ContentViewState :=
  set_scroll_y 0 c.

Definition action_scroll_end (c : ContentViewState) : ContentViewState :=
  set_scroll_y (virtual_height c) c.

Definition action_page_down (c : ContentViewState) : ContentViewState :=
  set_scroll_y (scroll_y c + (size_height c - 2)) c.

Definition action_page_up (c : ContentViewState) : ContentViewState :=
  set_scroll_y (scroll_y c - (size_height c - 2)) c.

(** [ContentView.action_return_to_tree]: [self.blur(); tree.focus()] *)
Definition action_return_to_tree (a : App) : App :=
  focus FileTreeW (blur ContentViewW a).

(** The bindings the pane inherits from the scrollable container of the
    toolkit.  The table is not in src/; the actions it names are the
    ones this class overrides, so the arrow and paging keys run the code
    above.  [None] when the table has no entry for the key that is
    modelled here (its left and right arrows scroll sideways).  The
    pane's own [BINDINGS] name only keys that [on_key] below takes
    first and stops, so no key reaches them. *)
Definition inherited_bindings (key : string) (c : ContentViewState)
  : option ContentViewState :=
  if key =? "up" then Some (action_scroll_up c)
  else if key =? "down" then Some (action_scroll_down c)
  else if key =? "home" then Some (action_scroll_home c)
  else if key =? "end" then Some (action_scroll_end c)
  else if key =? "pageup" then Some (action_page_up c)
  else if key =? "pagedown" then Some (action_page_down c)
  else None.

(** [ContentView.on_key].  The boolean tells whether the handler called
    [event.prevent_default()], which ends the handling of the key. *)
Definition on_key (key : string) (a : App) : App * bool :=
  if key =? "j" then (with_content (action_scroll_down (content a)) a, true)
  else if key =? "k" then (with_content (action_scroll_up (content a)) a, true)
  else if key =? "g" then (with_content (action_scroll_home (content a)) a, true)
  else if key =? "G" then (with_content (action_scroll_end (content a)) a, true)
  else if key =? "ctrl+d" then (with_content (action_page_down (content a)) a, true)
  else if key =? "ctrl+u" then (with_content (action_page_up (content a)) a, true)
  else if key =? "enter" then (action_return_to_tree a, true)
  else (a, false).

End ContentView.

(** ** The tree widget of the toolkit *)

Module TreeWidget.

(** The node found by following [addr] down from [n]. *)
Fixpoint node_at (n : TreeNode) (addr : list nat) : option TreeNode :=
  match addr with
  | [] => Some n
  | i :: rest =>
      match nth_error (children n) i with
      | Some c => node_at c rest
      | None => None
      end
  end.

(** [l[i] = f(l[i])] when [i] is in range. *)
Fixpoint alter_nth {A : Type} (f : A -> A) (i : nat) (l : list A) : list A :=
  match l, i with
  | [], _ => []
  | x :: rest, O => f x :: rest
  | x :: rest, S j => x :: alter_nth f j rest
  end.

(** The tree with the node at [addr] replaced by its image under [f]:
    what an in-place update of that node object does to the tree. *)
Fixpoint alter_at (f : TreeNode -> TreeNode) (addr : list nat) (n : TreeNode)
  : TreeNode :=
  match addr with
  | [] => f n
  | i :: rest =>
      mkNode (label n) (data n) (allow_expand n) (is_expanded n)
        (alter_nth (alter_at f rest) i (children n))
  end.

Definition set_expanded (b : bool) (n : TreeNode) : TreeNode :=
  mkNode (label n) (data n) (allow_expand n) b (children n).

(** Modelled from the spec: [node.expand()] sets the node's expansion
    flag and touches nothing else.  The method is not in src/. *)
Definition expand (addr : list nat) (t : FileTreeState) : FileTreeState :=
  mkFileTree (alter_at (set_expanded true) addr (root t))
    (cursor t) (visible t) (tree_width t) (tree_display t).

(** Modelled from the spec: [node.collapse()] clears the node's
    expansion flag and touches nothing else.  The method is not in src/. *)
Definition collapse (addr : list nat) (t : FileTreeState) : FileTreeState :=
  mkFileTree (alter_at (set_expanded false) addr (root t))
    (cursor t) (visible t) (tree_width t) (tree_display t).

(** [node.add(label, data=data)]: a new collapsed branch. *)
Definition add (label data : string) (children : list TreeNode) : TreeNode :=
  mkNode label (Some data) true false children.

(** [node.add_leaf(label, data=data)]: a new node that cannot expand. *)
Definition add_leaf (label data : string) : TreeNode :=
  mkNode label (Some data) false false [].

(** [self.cursor_node] *)
Definition cursor_node (t : FileTreeState) : option TreeNode :=
  match cursor t with
  | Some addr => node_at (root t) addr
  | None => None
  end.

(** Modelled from the spec: the flattened visible traversal order, a
    node first and then, when it is expanded, the visible lines of its
    children from first to last.  Each line is the address of its node. *)
Fixpoint visible_lines (n : TreeNode) : list (list nat) :=
  [] ::
  (if is_expanded n then
     (fix below (i : nat) (cs : list TreeNode) : list (list nat) :=
        match cs with
        | [] => []
        | c :: rest => (map (cons i) (visible_lines c) ++ below (S i) rest)%list
        end) O (children n)
   else []).

Fixpoint addr_eqb (a b : list nat) : bool :=
  match a, b with
  | [], [] => true
  | x :: a', y :: b' => (x =? y)%nat && addr_eqb a' b'
  | _, _ => false
  end.

Fixpoint line_of (addr : list nat) (lines : list (list nat)) : option nat :=
  match lines with
  | [] => None
  | l :: rest =>
      if addr_eqb addr l then Some O
      else option_map S (line_of addr rest)
  end.

Definition set_cursor (c : option (list nat)) (t : FileTreeState) : FileTreeState :=
  mkFileTree (root t) c (visible t) (tree_width t) (tree_display t).

(** Modelled from the spec: [moveCursor(Down)] goes to the next visible
    line and stays on the last one.  [action_cursor_down] is not in src/. *)
Definition action_cursor_down (t : FileTreeState) : FileTreeState :=
  let lines := visible_lines (root t) in
  match cursor t with
  | Some addr =>
      match line_of addr lines with
      | Some i =>
          match nth_error lines (S i) with
          | Some next => set_cursor (Some next) t
          | None => t
          end
      | None => t
      end
  | None => t
  end.

(** Modelled from the spec: [moveCursor(Up)] goes to the previous visible
    line and stays on the first one.  [action_cursor_up] is not in src/. *)
Definition action_cursor_up (t : FileTreeState) : FileTreeState :=
  let lines := visible_lines (root t) in
  match cursor t with
  | Some addr =>
      match line_of addr lines with
      | Some (S i) =>
          match nth_error lines i with
          | Some prev => set_cursor (Some prev) t
          | None => t
          end
      | _ => t
      end
  | None => t
  end.

(** Modelled from the spec: the toolkit's [action_toggle_node] expands
    or collapses the node under the cursor when that node can expand.
    The method is not in src/. *)
Definition action_toggle_node (t : FileTreeState) : FileTreeState :=
  match cursor t, cursor_node t with
  | Some addr, Some n =>
      if allow_expand n
      then if is_expanded n then collapse addr t else expand addr t
      else t
  | _, _ => t
  end.

(** A node and everything below it. *)
Fixpoint subnodes (n : TreeNode) : list TreeNode :=
  n :: flat_map subnodes (children n).

End TreeWidget.

(** ** The file system *)

(** What [Path.iterdir()] finds at load time: a file, or a directory with
    its own entries in the order the operating system lists them.
    Directories are taken to be listable. *)
Inductive FsEntry : Type :=
| FsFile (name : string)
| FsDir (name : string) (entries : list FsEntry).

(** [item.name] *)
Definition entry_name (e : FsEntry) : string :=
  match e with
  | FsFile name => name
  | FsDir name _ => name
  end.

(** [item.is_dir()] *)
Definition is_dir (e : FsEntry) : bool :=
  match e with
  | FsFile _ => false
  | FsDir _ _ => true
  end.

(** The depth of nesting below an entry. *)
Fixpoint fs_depth (e : FsEntry) : nat :=
  match e with
  | FsFile _ => O
  | FsDir _ entries => S (list_max (map fs_depth entries))
  end.

Definition entries_depth (entries : list FsEntry) : nat :=
  list_max (map fs_depth entries).

(** The outcome of a call that may raise: its value, or [str(e)] of the
    exception caught by [except Exception as e]. *)
Inductive Outcome (A : Type) : Type :=
| Returns (value : A)
| Raises (message : string).

Arguments Returns {A} value.
Arguments Raises {A} message.

(** The operating system as the highlight handler sees it:
    [os.path.isfile], [os.path.isdir], [open(path).read()] and
    [os.listdir]. *)
Record OS : Type :=
  mkOS {
    isfile : string -> bool;
    isdir : string -> bool;
    read : string -> Outcome string;
    listdir : string -> Outcome (list string)
  }.

(** ** IOCCCViewer *)

Module IOCCCViewer.

(** [IOCCCViewer.update_content].  The screen is the [MainScreen] from
    the moment the widgets exist, so the outer test holds. *)
Definition update_content (label content_ : string) (a : App) : App :=
  if negb (content_ =? "")
  then with_content (ContentView.update content_ (content a)) a
  else with_content
         (ContentView.update ("No content available for " ++ label) (content a)) a.

(** The [quit] action of the toolkit: the event loop ends. *)
Definition action_quit (a : App) : App :=
  mkApp (file_tree a) (content a) (focused a) false.

End IOCCCViewer.

(** ** FileTree *)

Module FileTree.

Import Toolkit TreeWidget.

(** [FileTree.toggle_visibility] *)
Definition toggle_visibility (a : App) : App :=
  let t := file_tree a in
  let visible' := negb (visible t) in
  let t' := mkFileTree (root t) (cursor t) visible'
              (if visible' then "30%" else "0")
              (if visible' then "block" else "none") in
  let c := content a in
  let c' := mkContentView (render_text c) (displayed c) (is_mounted c)
              (scroll_y c) (size_height c) (virtual_height c)
              (if visible' then "70%" else "100%") in
  let a' := mkApp t' c' (focused a) (running a) in
  if visible' then focus FileTreeW a' else a'.

(** The key of [sorted]: [(not p.is_dir(), p.name.lower())]. *)
Definition sort_key (p : FsEntry) : bool * string :=
  (negb (is_dir p), lower (entry_name p)).

(** Python's order on such pairs: [False < True] on the first
    components, the order of strings on the second when the first are
    equal. *)
Definition key_leb (k1 k2 : bool * string) : bool :=
  match fst k1, fst k2 with
  | false, true => true
  | true, false => false
  | _, _ => (snd k1 <=? snd k2)%string
  end.

(** [sorted(..., key=...)] is the stable sort by the key; insertion from
    the right, each element put before the first one that is not below
    it, is that sort. *)
Fixpoint insert_by_key (x : FsEntry) (l : list FsEntry) : list FsEntry :=
  match l with
  | [] => [x]
  | y :: rest =>
      if key_leb (sort_key x) (sort_key y) then x :: l
      else y :: insert_by_key x rest
  end.

Fixpoint sorted (l : list FsEntry) : list FsEntry :=
  match l with
  | [] => []
  | x :: rest => insert_by_key x (sorted rest)
  end.

(** The body of [for item in paths] in [add_to_tree]; [recur] is
    [add_to_tree] itself, called on a directory's own entries, and
    [path] is [str(path)] of the directory being listed, so that
    [str(item)] is [path/name]. *)
Fixpoint for_item_in
    (recur : string -> list FsEntry -> list TreeNode)
    (path : string) (paths : list FsEntry) : list TreeNode :=
  match paths with
  | [] => []
  | item :: rest =>
      let name := entry_name item in
      if startswith name "." || (name =? "__pycache__")
      then for_item_in recur path rest
      else
        let data := path ++ "/" ++ name in
        match item with
        | FsDir _ entries =>
            add ("ðŸ“ " ++ name) data (recur data entries)
              :: for_item_in recur path rest
        | FsFile _ =>
            let icon :=
              if mem (suffix name) [".c"; ".h"] then "ðŸ“„"
              else if mem (suffix name) [".txt"; ".md"; ".info"] then "ðŸ“"
              else if mem (suffix name) [".mk"; "Makefile"] then "ðŸ”§"
              else "ðŸ“Ž" in
            add_leaf (icon ++ " " ++ name) data
              :: for_item_in recur path rest
        end
  end.

(** [add_to_tree(node, path)], returning the children it adds to [node]:
    the listing is sorted, then walked.  [budget] bounds the depth of the
    recursion into sub-directories. *)
Fixpoint add_to_tree (budget : nat) (path : string) (entries : list FsEntry)
  : list TreeNode :=
  match budget with
  | O => []
  | S budget' =>
      let paths := sorted entries in
      for_item_in (add_to_tree budget') path paths
  end.

(** [FileTree.load_directory]: the children of the root after
    [add_to_tree(self.root, root_path)], where [entries] is what
    [root_path.iterdir()] finds.  The budget is the depth of the
    directory tree, which [add_to_tree] never exceeds. *)
Definition load_directory (path : string) (entries : list FsEntry)
    (t : FileTreeState) : FileTreeState :=
  let r := root t in
  mkFileTree
    (mkNode (label r) (data r) (allow_expand r) (is_expanded r)
       (children r ++ add_to_tree (S (entries_depth entries)) path entries)%list)
    (cursor t) (visible t) (tree_width t) (tree_display t).

(** [FileTree.on_mount]: [self.root.expand()], then
    [self.load_directory("assets")]. *)
Definition on_mount (assets : list FsEntry) (t : FileTreeState) : FileTreeState :=
  load_directory "assets" assets (expand [] t).

(** The text shown for the file at [path] once it has been read: the
    [if]/[elif] chain on the path inside [on_tree_node_highlighted]. *)
Definition fenced (path content_ : string) : string :=
  if endswith path ".c" then "```c" ++ nl ++ content_ ++ nl ++ "```"
  else if endswith path ".h" then "```c" ++ nl ++ content_ ++ nl ++ "```"
  else if endswith path ".mk" || contains "Makefile" path
  then "```makefile" ++ nl ++ content_ ++ nl ++ "```"
  else content_.

(** The text shown for the directory at [path] whose listing is [names]. *)
Definition summary (os : OS) (path : string) (names : list string) : string :=
  let num_files := List.length (filter (fun f => isfile os (join path f)) names) in
  let num_dirs := List.length (filter (fun d => isdir os (join path d)) names) in
  "# " ++ basename path ++ nl ++ nl
  ++ "This directory contains:" ++ nl
  ++ "- " ++ str_of_nat num_files ++ " files" ++ nl
  ++ "- " ++ str_of_nat num_dirs ++ " directories" ++ nl ++ nl
  ++ "Select a file to view its contents.".

(** [FileTree.on_tree_node_highlighted]; [node] is [event.node]. *)
Definition on_tree_node_highlighted (os : OS) (node : option TreeNode) (a : App)
  : App :=
  match node with
  | Some n =>
      match data n with
      | Some path =>
          if negb (path =? "") && isfile os path then
            match read os path with
            | Returns content_ =>
                IOCCCViewer.update_content (label n) (fenced path content_) a
            | Raises e =>
                IOCCCViewer.update_content (label n)
                  ("Error reading file: " ++ e) a
            end
          else if isdir os path then
            match listdir os path with
            | Returns names =>
                IOCCCViewer.update_content (label n) (summary os path names) a
            | Raises e =>
                IOCCCViewer.update_content (label n)
                  ("Error reading directory: " ++ e) a
            end
          else a
      | None => a
      end
  | None => a
  end.

(** [FileTree.on_key]; the boolean is [event.prevent_default()]. *)
Definition on_key (key : string) (a : App) : App * bool :=
  let t := file_tree a in
  if key =? "j" then (with_file_tree (action_cursor_down t) a, true)
  else if key =? "k" then (with_file_tree (action_cursor_up t) a, true)
  else if key =? "enter" then
    match cursor t, cursor_node t with
    | Some addr, Some n =>
        match children n with
        | _ :: _ =>
            if is_expanded n
            then (with_file_tree (collapse addr t) a, true)
            else (with_file_tree (expand addr t) a, true)
        | [] =>
            (focus ContentViewW (blur FileTreeW a), true)
        end
    | _, _ => (a, true)
    end
  else (a, false).

(** [FileTree.action_expand_node] *)
Definition action_expand_node (t : FileTreeState) : FileTreeState :=
  match cursor t, cursor_node t with
  | Some addr, Some n =>
      match children n with
      | _ :: _ => if negb (is_expanded n) then expand addr t else t
      | [] => t
      end
  | _, _ => t
  end.

(** [FileTree.action_collapse_node] *)
Definition action_collapse_node (t : FileTreeState) : FileTreeState :=
  match cursor t, cursor_node t with
  | Some addr, Some n =>
      match children n with
      | _ :: _ => if is_expanded n then collapse addr t else t
      | [] => t
      end
  | _, _ => t
  end.

(** [FileTree.BINDINGS], and behind them the bindings the class inherits
    from the tree of the toolkit: its arrows move the cursor and the
    space bar toggles the node under it.  The inherited table is not in
    src/.  [None] when no entry is modelled for the key. *)
Definition bindings (key : string) (t : FileTreeState) : option FileTreeState :=
  if key =? "zo" then Some (action_expand_node t)
  else if key =? "zc" then Some (action_collapse_node t)
  else if key =? "up" then Some (action_cursor_up t)
  else if key =? "down" then Some (action_cursor_down t)
  else if key =? "space" then Some (action_toggle_node t)
  else None.

End FileTree.

(** ** MainScreen *)

Module MainScreen.

Import Toolkit.

(** [MainScreen.on_mount] *)
Definition on_mount (a : App) : App := focus FileTreeW a.

(** [MainScreen.action_switch_focus] *)
Definition action_switch_focus (a : App) : App :=
  if has_focus FileTreeW a
  then focus ContentViewW (blur FileTreeW a)
  else focus FileTreeW (blur ContentViewW a).

(** [MainScreen.on_key] *)
Definition on_key (key : string) (a : App) : App * bool :=
  if key =? "tab" then (action_switch_focus a, true) else (a, false).

(** [MainScreen.action_toggle_sidebar] *)
Definition action_toggle_sidebar (a : App) : App :=
  FileTree.toggle_visibility a.

(** [MainScreen.action_focus_viewer] *)
Definition action_focus_viewer (a : App) : App :=
  focus ContentViewW (blur FileTreeW a).

(** [MainScreen.action_focus_tree] *)
Definition action_focus_tree (a : App) : App :=
  focus FileTreeW (blur ContentViewW a).

(** [MainScreen.BINDINGS], for the keys that no [on_key] handler takes
    first.  An entry written with a comma binds each of its keys, so
    ["f,k"] gives [f] and [k] to [focus_viewer] and ["f,h"] gives [h] to
    [focus_tree]; a key that two entries name runs the first.  No
    handler of the program buffers a first key. *)
Definition bindings (key : string) (a : App) : App :=
  if key =? "q" then IOCCCViewer.action_quit a
  else if key =? "~" then action_toggle_sidebar a
  else if (key =? "f") || (key =? "k") then action_focus_viewer a
  else if key =? "h" then action_focus_tree a
  else a.

End MainScreen.

(** ** The event loop *)

Module EventLoop.

Import Toolkit TreeWidget.

(** The widget handler a key goes to first: the [on_key] of the pane
    that holds the focus. *)
Definition widget_on_key (key : string) (a : App) : App * bool :=
  match focused a with
  | Some ContentViewW => ContentView.on_key key a
  | Some FileTreeW => FileTree.on_key key a
  | None => (a, false)
  end.

(** Modelled from the spec: when the cursor of the tree has moved to
    another line, the toolkit reports the node under it to
    [on_tree_node_highlighted].  The report is not in src/. *)
Definition report_highlight (os : OS) (before : option (list nat)) (a : App)
  : App :=
  match before, cursor (file_tree a) with
  | Some b, Some c =>
      if addr_eqb b c then a
      else FileTree.on_tree_node_highlighted os (cursor_node (file_tree a)) a
  | None, Some _ =>
      FileTree.on_tree_node_highlighted os (cursor_node (file_tree a)) a
  | _, None => a
  end.

(** The bindings of the pane that holds the focus, which come before
    those of the screen. *)
Definition pane_bindings (key : string) (a : App) : option App :=
  match focused a with
  | Some ContentViewW =>
      option_map (fun c => with_content c a)
        (ContentView.inherited_bindings key (content a))
  | Some FileTreeW =>
      option_map (fun t => with_file_tree t a)
        (FileTree.bindings key (file_tree a))
  | None => None
  end.

(** The chain of handlers of one key: the focused widget's [on_key],
    then [MainScreen.on_key], then the bindings of the focused pane and
    of the screen; a handler that prevents the default ends the
    chain. *)
Definition handle (key : string) (a : App) : App :=
  let (a1, prevented1) := widget_on_key key a in
  if prevented1 then a1
  else
    let (a2, prevented2) := MainScreen.on_key key a1 in
    if prevented2 then a2
    else
      match pane_bindings key a2 with
      | Some a3 => a3
      | None => MainScreen.bindings key a2
      end.

(** One key press: the chain of handlers, the hand-over of the focus
    when the key has hidden a focused tree, and the report of a moved
    cursor.  The layout of the content pane that the toolkit makes
    after a load or a change of width reaches the loop as a [Layout]
    event of its own. *)
Definition press (os : OS) (key : string) (a : App) : App :=
  if negb (running a) then a
  else report_highlight os (cursor (file_tree a))
         (release_hidden (handle key a)).

(** A sequence of key presses. *)
Definition presses (os : OS) (keys : list string) (a : App) : App :=
  fold_left (fun s k => press os k s) keys a.

(** What the event loop takes in: a key, or a report of the rendering
    surface on the heights of the content pane. *)
Inductive Event : Type :=
| KeyPress (key : string)
| Layout (viewport contentHeight : Z).

Definition step (os : OS) (e : Event) (a : App) : App :=
  match e with
  | KeyPress key => press os key a
  | Layout viewport contentHeight =>
      if negb (running a) then a
      else with_content (layout viewport contentHeight (content a)) a
  end.

(** A run of the event loop. *)
Definition run (os : OS) (events : list Event) (a : App) : App :=
  fold_left (fun s e => step os e s) events a.

(** The text the content pane is composed with. *)
Definition welcome : string :=
  "Welcome to IOCCC Submissions Viewer!" ++ nl ++ nl
  ++ "Navigation:" ++ nl
  ++ "- j/k: Move up/down in tree or scroll content" ++ nl
  ++ "- Enter: Open/close folders in tree, focus viewer for files" ++ nl
  ++ "- Enter (in viewer): Return to tree" ++ nl
  ++ "- zo/zc: Expand/collapse directories" ++ nl
  ++ "- fk: Focus viewer" ++ nl
  ++ "- fh: Focus sidebar" ++ nl
  ++ "- Tab: Switch between tree and content" ++ nl
  ++ "- ~: Toggle sidebar" ++ nl
  ++ "- q: Quit" ++ nl ++ nl
  ++ "Content View Additional Controls:" ++ nl
  ++ "- Ctrl+u/Ctrl+d: Page up/down" ++ nl
  ++ "- gg/G: Jump to top/bottom".

(** The application once [MainScreen.compose], [FileTree.on_mount] and
    [MainScreen.on_mount] have run over the directory [assets], in a
    terminal whose content pane is [viewport] lines high and lays the
    welcome text out on [contentHeight] lines.  The tree is visible, its
    cursor is on the root line and the focus is on the tree. *)
Definition start (assets : list FsEntry) (viewport contentHeight : Z) : App :=
  let tree0 := mkFileTree (mkNode "Files" None true false []) (Some [])
                 true "30%" "block" in
  let content0 := mkContentView welcome welcome true 0 viewport contentHeight
                    "70%" in
  MainScreen.on_mount
    (mkApp (FileTree.on_mount assets tree0) content0 None true).

End EventLoop.

(** ** Vocabulary of the specification *)

Module Spec.

Import Toolkit TreeWidget EventLoop.

(** The ScrollState of a content pane: offset, viewportHeight,
    contentHeight. *)
Definition scroll_state (c : ContentViewState) : Z * Z * Z :=
  (scroll_y c, size_height c, virtual_height c).

(** The invariant of ScrollState. *)
Definition scroll_invariant (c : ContentViewState) : Prop :=
  (0 <= scroll_y c <= Z.max 0 (virtual_height c - size_height c))%Z.

(** The scrolling operations, named after the actions that carry them
    out. *)
Inductive ScrollOp : Type :=
| ScrollDown | ScrollUp | ScrollHome | ScrollEnd | PageDown | PageUp.

Definition scroll (op : ScrollOp) (c : ContentViewState) : ContentViewState :=
  match op with
  | ScrollDown => ContentView.action_scroll_down c
  | ScrollUp => ContentView.action_scroll_up c
  | ScrollHome => ContentView.action_scroll_home c
  | ScrollEnd => ContentView.action_scroll_end c
  | PageDown => ContentView.action_page_down c
  | PageUp => ContentView.action_page_up c
  end.

(** The states a pane goes through, one after each operation. *)
Fixpoint states_after (ops : list ScrollOp) (c : ContentViewState)
  : list ContentViewState :=
  match ops with
  | [] => []
  | op :: rest => scroll op c :: states_after rest (scroll op c)
  end.

(** The name of a node: the last component of the path it carries, and
    the label for the root, which carries none. *)
Definition name_of (n : TreeNode) : string :=
  match data n with
  | Some path => basename path
  | None => label n
  end.

(** A hidden entry, or the build cache. *)
Definition excluded (name : string) : bool :=
  startswith name "." || (name =? "__pycache__").

(** [n1] may stand before [n2] among the children of a node: a
    directory before a file, or two of a kind with their lower-cased
    names in order. *)
Definition stands_before (n1 n2 : TreeNode) : Prop :=
  (allow_expand n1 = true /\ allow_expand n2 = false)
  \/ (allow_expand n1 = allow_expand n2
      /\ (lower (name_of n1) <=? lower (name_of n2)) = true).

(** The invariant of a list of children: every child may stand before
    all that follow it, and none has an excluded name. *)
Definition children_in_order (cs : list TreeNode) : Prop :=
  StronglySorted stands_before cs
  /\ Forall (fun c => excluded (name_of c) = false) cs.

(** Every node of a tree has its children in order. *)
Definition tree_in_order (r : TreeNode) : Prop :=
  forall m : TreeNode, In m (subnodes r) -> children_in_order (children m).

(** An entry is listed no later than another by the key of [sorted]. *)
Definition entry_le (x y : FsEntry) : Prop :=
  FileTree.key_leb (FileTree.sort_key x) (FileTree.sort_key y) = true.

(** What a directory listing can hold: names without a slash, all the
    way down. *)
Fixpoint valid_entry (e : FsEntry) : bool :=
  negb (contains "/" (entry_name e)) &&
  match e with
  | FsFile _ => true
  | FsDir _ entries => forallb valid_entry entries
  end.

(** A C source of forty lines. *)
Definition c_source : string :=
  String.concat nl
    (repeat "/* obfuscated */" 39 ++ ["int main(void) { return 0; }"])%list.

(** A small [assets] directory: an empty directory, a directory with
    two C files in it, a readable text file and one that cannot be
    opened. *)
Definition demo_assets : list FsEntry :=
  [FsFile "README.md"; FsDir "src" [FsFile "main.c"; FsFile "hello.c"];
   FsFile "locked.txt"; FsDir "empty" []].

(** The operating system over [demo_assets]. *)
Definition demo_os : OS :=
  mkOS
    (fun p => mem p ["assets/README.md"; "assets/src/hello.c";
                     "assets/src/main.c"; "assets/locked.txt"])
    (fun p => mem p ["assets"; "assets/src"; "assets/empty"])
    (fun p =>
       if p =? "assets/README.md" then Returns "IOCCC winners"
       else if p =? "assets/src/hello.c" then Returns c_source
       else if p =? "assets/src/main.c" then Returns c_source
       else if p =? "assets/locked.txt"
            then Raises "[Errno 13] Permission denied: 'assets/locked.txt'"
       else Raises "[Errno 2] No such file or directory")
    (fun p =>
       if p =? "assets" then Returns ["README.md"; "src"; "locked.txt"; "empty"]
       else if p =? "assets/src" then Returns ["main.c"; "hello.c"]
       else if p =? "assets/empty" then Returns []
       else Raises "[Errno 2] No such file or directory").

(** The run that opens [src], shows [hello.c] on its forty-two lines
    and scrolls three lines down in it, the focus back on the tree. *)
Definition reading_hello : list Event :=
  [KeyPress "j"; KeyPress "j"; KeyPress "enter"; KeyPress "j"; Layout 10 42;
   KeyPress "tab"; KeyPress "j"; KeyPress "j"; KeyPress "j"; KeyPress "tab"].

(** An operating system with nothing in it. *)
Definition bare_os : OS :=
  mkOS (fun _ => false) (fun _ => false)
       (fun _ => Raises "No such file or directory")
       (fun _ => Raises "No such file or directory").

End Spec.

(** ** Further vocabulary *)

Module Observe.

Import Toolkit TreeWidget EventLoop Spec.

(** The content pane is mounted, shows its current buffer, and that
    buffer is not empty. *)
Definition buffer_shown (c : ContentViewState) : Prop :=
  is_mounted c = true /\ displayed c = render_text c /\ render_text c <> "".

(** A name made of ASCII characters only. *)
Definition ascii_name (name : string) : bool :=
  forallb (fun c => (nat_of_ascii c <? 128)%nat) (list_ascii_of_string name).

(** A listing whose names are ASCII, all the way down. *)
Fixpoint ascii_entry (e : FsEntry) : bool :=
  ascii_name (entry_name e) &&
  match e with
  | FsFile _ => true
  | FsDir _ entries => forallb ascii_entry entries
  end.

(** Two states of the tree widget that show the sidebar alike: as
    visible and as wide. *)
Definition same_view (t' t : FileTreeState) : Prop :=
  visible t' = visible t
  /\ tree_width t' = tree_width t
  /\ tree_display t' = tree_display t.

(** With the sidebar visible, somebody holds the focus. *)
Definition held_while_visible (a : App) : Prop :=
  visible (file_tree a) = true -> focused a <> None.

(** With the sidebar hidden, the tree does not hold the focus. *)
Definition released_while_hidden (a : App) : Prop :=
  visible (file_tree a) = false -> focused a <> Some FileTreeW.

(** Equality of two keys of [sorted]. *)
Definition key_eqb (k1 k2 : bool * string) : bool :=
  Bool.eqb (fst k1) (fst k2) && (snd k1 =? snd k2).

(** The entries of a listing whose key is [k], in the order of the
    listing. *)
Definition with_key (k : bool * string) (l : list FsEntry) : list FsEntry :=
  filter (fun e => key_eqb (FileTree.sort_key e) k) l.

(** The entries of a listing that the load does not skip. *)
Definition kept (entries : list FsEntry) : list FsEntry :=
  filter (fun e => negb (excluded (entry_name e))) entries.

(** A tree without its expansion flags: labels, paths, kinds and the
    order of the children. *)
Fixpoint shape (n : TreeNode) : TreeNode :=
  match n with
  | mkNode l d ae _ cs => mkNode l d ae false (map shape cs)
  end.

End Observe.

(** * Properties *)

Import Toolkit TreeWidget EventLoop Spec Observe.

(** ** Scrolling *)

Lemma validate_scroll_y_range (c : ContentViewState) (value : Z) :
  (0 <= validate_scroll_y c value <= max_scroll_y c)%Z.
Proof. unfold validate_scroll_y, max_scroll_y. lia. Qed.

Lemma set_scroll_y_invariant (value : Z) (c : ContentViewState) :
  scroll_invariant (set_scroll_y value c).
Proof.
  unfold scroll_invariant, set_scroll_y; simpl.
  apply validate_scroll_y_range.
Qed.

Lemma scroll_invariant_after (op : ScrollOp) (c : ContentViewState) :
  scroll_invariant (scroll op c).
Proof. destruct op; apply set_scroll_y_invariant. Qed.

(** C3.  Whatever the pane's state and whatever sequence of [j]/[k]
    scrolls, page moves and jumps to top or bottom is run on it, the
    state after each operation has [0 <= offset <= max(0, contentHeight -
    viewportHeight)].  Every operation is a total function, so running
    past a bound is no error: one more line down from the bottom, or one
    more line up from the top, leaves the offset on the bound. *)
Theorem scroll_offset_always_clamped :
  (forall (ops : list ScrollOp) (c : ContentViewState),
      Forall scroll_invariant (states_after ops c))
  /\ (forall c : ContentViewState,
         scroll_y c = max_scroll_y c ->
         scroll_y (scroll ScrollDown c) = scroll_y c)
  /\ (forall c : ContentViewState,
         scroll_y c = 0%Z ->
         scroll_y (scroll ScrollUp c) = 0%Z).
Proof.
  split; [| split].
  - induction ops as [| op rest IH]; intro c; simpl.
    + constructor.
    + constructor; [apply scroll_invariant_after | apply IH].
  - intros c H. simpl.
    unfold ContentView.action_scroll_down, set_scroll_y, validate_scroll_y;
      simpl.
    rewrite H. unfold max_scroll_y. lia.
  - intros c H. simpl.
    unfold ContentView.action_scroll_up, set_scroll_y, validate_scroll_y,
      max_scroll_y; simpl.
    rewrite H. lia.
Qed.

(** A pane of ten lines over a hundred lines of content, at the bottom
    and at the top. *)
Lemma scroll_offset_always_clamped_witness :
  Forall scroll_invariant
    (states_after [PageDown; ScrollDown; ScrollEnd; PageUp; ScrollUp; ScrollHome]
       (mkContentView "" "" true 0 10 100 "70%"))
  /\ scroll_y (scroll ScrollDown (mkContentView "" "" true 90 10 100 "70%")) = 90%Z
  /\ scroll_y (scroll ScrollUp (mkContentView "" "" true 0 10 100 "70%")) = 0%Z.
Proof.
  destruct scroll_offset_always_clamped as [Hinv [Hbottom Htop]].
  split; [apply Hinv | split].
  - apply (Hbottom (mkContentView "" "" true 90 10 100 "70%")). reflexivity.
  - apply (Htop (mkContentView "" "" true 0 10 100 "70%")). reflexivity.
Defined.

(** ** Key dispatch *)

Lemma addr_eqb_refl (a : list nat) : addr_eqb a a = true.
Proof.
  induction a as [| x a IH]; simpl; [reflexivity |].
  now rewrite Nat.eqb_refl, IH.
Qed.

Lemma addr_eqb_eq (a b : list nat) : addr_eqb a b = true -> a = b.
Proof.
  revert b; induction a as [| x a IH]; intros [| y b]; simpl;
    try discriminate; [reflexivity |].
  intro H. apply andb_prop in H. destruct H as [Hx Hab].
  apply Nat.eqb_eq in Hx. now rewrite Hx, (IH b Hab).
Qed.

(** No report is made when the cursor is where it was. *)
Lemma report_highlight_same (os : OS) (a : App) :
  report_highlight os (cursor (file_tree a)) a = a.
Proof.
  unfold report_highlight.
  destruct (cursor (file_tree a)) as [c |]; [| reflexivity].
  now rewrite addr_eqb_refl.
Qed.

(** The focus calls change the holder of the focus and nothing else. *)
Lemma focus_frame (w : Widget) (a : App) :
  file_tree (focus w a) = file_tree a
  /\ content (focus w a) = content a
  /\ running (focus w a) = running a.
Proof. unfold focus. destruct (focusable w a); repeat split; reflexivity. Qed.

Lemma blur_frame (w : Widget) (a : App) :
  file_tree (blur w a) = file_tree a
  /\ content (blur w a) = content a
  /\ running (blur w a) = running a.
Proof.
  unfold blur. destruct (focused a) as [w' |]; [| repeat split; reflexivity].
  destruct (Widget_eqb w w'); repeat split; reflexivity.
Qed.

Lemma release_hidden_frame (a : App) :
  file_tree (release_hidden a) = file_tree a
  /\ content (release_hidden a) = content a
  /\ running (release_hidden a) = running a.
Proof.
  unfold release_hidden. destruct (focused a) as [[|] |];
    try (repeat split; reflexivity).
  destruct (visible (file_tree a)); repeat split; reflexivity.
Qed.

(** Rewriting with the three lemmas above. *)
Ltac focus_frames :=
  repeat first
    [ rewrite (proj1 (focus_frame _ _))
    | rewrite (proj1 (proj2 (focus_frame _ _)))
    | rewrite (proj2 (proj2 (focus_frame _ _)))
    | rewrite (proj1 (blur_frame _ _))
    | rewrite (proj1 (proj2 (blur_frame _ _)))
    | rewrite (proj2 (proj2 (blur_frame _ _)))
    | rewrite (proj1 (release_hidden_frame _))
    | rewrite (proj1 (proj2 (release_hidden_frame _)))
    | rewrite (proj2 (proj2 (release_hidden_frame _))) ].

(** The focus goes to the content pane whenever it is asked to. *)
Lemma focus_content (a : App) :
  focus ContentViewW a
  = mkApp (file_tree a) (content a) (Some ContentViewW) (running a).
Proof. reflexivity. Qed.

(** The focus goes to the tree when the sidebar is visible, and stays
    where it is when the sidebar is hidden. *)
Lemma focus_tree_visible (a : App) :
  visible (file_tree a) = true ->
  focus FileTreeW a
  = mkApp (file_tree a) (content a) (Some FileTreeW) (running a).
Proof. intro H. unfold focus, focusable. now rewrite H. Qed.

Lemma focus_tree_hidden (a : App) :
  visible (file_tree a) = false -> focus FileTreeW a = a.
Proof. intro H. unfold focus, focusable. now rewrite H. Qed.

(** A handler that does not prevent the default has done nothing. *)
Lemma widget_on_key_unprevented (key : string) (a : App) :
  snd (widget_on_key key a) = false -> fst (widget_on_key key a) = a.
Proof.
  unfold widget_on_key, FileTree.on_key, ContentView.on_key.
  destruct (focused a) as [[|] |]; [| | reflexivity].
  - destruct (key =? "j"); [discriminate |].
    destruct (key =? "k"); [discriminate |].
    destruct (key =? "enter"); [| reflexivity].
    destruct (cursor (file_tree a)); [| discriminate].
    destruct (cursor_node (file_tree a)) as [n |]; [| discriminate].
    destruct (children n); [discriminate |].
    destruct (is_expanded n); discriminate.
  - repeat match goal with
           | |- context [if (key =? ?k) then _ else _] =>
               destruct (key =? k); [discriminate |]
           end.
    reflexivity.
Qed.

Lemma MainScreen_on_key_unprevented (key : string) (a : App) :
  snd (MainScreen.on_key key a) = false -> fst (MainScreen.on_key key a) = a.
Proof.
  unfold MainScreen.on_key. destruct (key =? "tab"); [discriminate | reflexivity].
Qed.

(** The chain of handlers of a key comes down to one handler run on the
    state the key found: the [on_key] of the focused pane, the [on_key]
    of the screen, a binding of the focused pane, or the bindings of the
    screen. *)
Lemma handle_preserves (P : App -> Prop) (key : string) (a : App) :
  P (fst (widget_on_key key a)) ->
  P (fst (MainScreen.on_key key a)) ->
  (forall c, focused a = Some ContentViewW ->
             ContentView.inherited_bindings key (content a) = Some c ->
             P (with_content c a)) ->
  (forall t, focused a = Some FileTreeW ->
             FileTree.bindings key (file_tree a) = Some t ->
             P (with_file_tree t a)) ->
  P (MainScreen.bindings key a) ->
  P (handle key a).
Proof.
  intros Hwidget Hscreen Hpane Htpane Hbind. unfold handle.
  pose proof (widget_on_key_unprevented key a) as U1.
  destruct (widget_on_key key a) as [a1 p1]; simpl in *.
  destruct p1; [exact Hwidget |].
  rewrite (U1 eq_refl).
  pose proof (MainScreen_on_key_unprevented key a) as U2.
  destruct (MainScreen.on_key key a) as [a2 p2]; simpl in *.
  destruct p2; [exact Hscreen |].
  rewrite (U2 eq_refl).
  unfold pane_bindings.
  destruct (focused a) as [[|] |] eqn:Hf; try exact Hbind.
  - destruct (FileTree.bindings key (file_tree a)) as [t |];
      simpl; [now apply Htpane | exact Hbind].
  - destruct (ContentView.inherited_bindings key (content a)) as [c |];
      simpl; [now apply Hpane | exact Hbind].
Qed.

(** A property kept by every handler, by the hand-over of the focus, by
    the highlight handler and by a layout is kept by every run of the
    event loop. *)
Lemma run_preserves (P : App -> Prop) (os : OS) :
  (forall key b, P b -> P (fst (FileTree.on_key key b))) ->
  (forall key b, P b -> P (fst (ContentView.on_key key b))) ->
  (forall key b, P b -> P (fst (MainScreen.on_key key b))) ->
  (forall key b c, P b -> focused b = Some ContentViewW ->
                   ContentView.inherited_bindings key (content b) = Some c ->
                   P (with_content c b)) ->
  (forall key b t, P b -> focused b = Some FileTreeW ->
                   FileTree.bindings key (file_tree b) = Some t ->
                   P (with_file_tree t b)) ->
  (forall key b, P b -> P (MainScreen.bindings key b)) ->
  (forall b, P b -> P (release_hidden b)) ->
  (forall node b, P b -> P (FileTree.on_tree_node_highlighted os node b)) ->
  (forall viewport contentHeight b,
      P b -> P (with_content (layout viewport contentHeight (content b)) b)) ->
  forall (events : list Event) (a : App), P a -> P (run os events a).
Proof.
  intros Htree Hcontent Hscreen Hpane Htpane Hbind Hrel Hhigh Hlay.
  assert (Hpress : forall key b, P b -> P (press os key b)).
  { intros key b Hb. unfold press. destruct (negb (running b)); [exact Hb |].
    assert (Hh : P (release_hidden (handle key b))).
    { apply Hrel. apply handle_preserves.
      - unfold widget_on_key. destruct (focused b) as [[|] |]; auto.
      - now apply Hscreen.
      - intros c Hf Hc. now apply (Hpane key b c).
      - intros t Hf Ht. now apply (Htpane key b t).
      - now apply Hbind. }
    unfold report_highlight.
    destruct (cursor (file_tree b)) as [c0 |],
             (cursor (file_tree (release_hidden (handle key b)))) as [c1 |];
      try exact Hh.
    - destruct (addr_eqb c0 c1); [exact Hh | now apply Hhigh].
    - now apply Hhigh. }
  assert (Hstep : forall e b, P b -> P (step os e b)).
  { intros [key | viewport contentHeight] b Hb; simpl.
    - now apply Hpress.
    - destruct (negb (running b)); [exact Hb | now apply Hlay]. }
  unfold run. induction events as [| e events IH]; intros a Ha; simpl;
    [exact Ha |].
  apply IH. now apply Hstep.
Qed.

(** The handlers outside the tree leave the tree widget alone. *)
Lemma ContentView_on_key_file_tree (key : string) (a : App) :
  file_tree (fst (ContentView.on_key key a)) = file_tree a.
Proof.
  unfold ContentView.on_key.
  repeat match goal with
         | |- context [if (key =? ?k) then _ else _] =>
             destruct (key =? k); [reflexivity |]
         end.
  destruct (key =? "enter"); [| reflexivity].
  unfold ContentView.action_return_to_tree; simpl. now focus_frames.
Qed.

Lemma MainScreen_on_key_file_tree (key : string) (a : App) :
  file_tree (fst (MainScreen.on_key key a)) = file_tree a.
Proof.
  unfold MainScreen.on_key, MainScreen.action_switch_focus.
  destruct (key =? "tab"); [| reflexivity].
  destruct (has_focus FileTreeW a); simpl; now focus_frames.
Qed.

Lemma toggle_visibility_root (a : App) :
  root (file_tree (FileTree.toggle_visibility a)) = root (file_tree a)
  /\ cursor (file_tree (FileTree.toggle_visibility a)) = cursor (file_tree a).
Proof.
  unfold FileTree.toggle_visibility.
  destruct (visible (file_tree a)); simpl; split; reflexivity.
Qed.

Lemma MainScreen_bindings_root (key : string) (a : App) :
  root (file_tree (MainScreen.bindings key a)) = root (file_tree a).
Proof.
  unfold MainScreen.bindings, MainScreen.action_toggle_sidebar,
    MainScreen.action_focus_viewer, MainScreen.action_focus_tree.
  destruct (key =? "q"); [reflexivity |].
  destruct (key =? "~"); [apply toggle_visibility_root |].
  destruct ((key =? "f") || (key =? "k")); [now focus_frames |].
  destruct (key =? "h"); [now focus_frames | reflexivity].
Qed.

Lemma MainScreen_bindings_cursor (key : string) (a : App) :
  cursor (file_tree (MainScreen.bindings key a)) = cursor (file_tree a).
Proof.
  unfold MainScreen.bindings, MainScreen.action_toggle_sidebar,
    MainScreen.action_focus_viewer, MainScreen.action_focus_tree.
  destruct (key =? "q"); [reflexivity |].
  destruct (key =? "~"); [apply toggle_visibility_root |].
  destruct ((key =? "f") || (key =? "k")); [now focus_frames |].
  destruct (key =? "h"); [now focus_frames | reflexivity].
Qed.

Lemma handle_content_cursor (key : string) (a : App) :
  focused a = Some ContentViewW ->
  cursor (file_tree (handle key a)) = cursor (file_tree a).
Proof.
  intro Hfoc. apply handle_preserves.
  - unfold widget_on_key. rewrite Hfoc. now rewrite ContentView_on_key_file_tree.
  - now rewrite MainScreen_on_key_file_tree.
  - reflexivity.
  - intros t Hf. congruence.
  - apply MainScreen_bindings_cursor.
Qed.

(** The hand-over of the focus has nothing to do when the tree does not
    hold the focus or is visible. *)
Lemma release_hidden_settled (a : App) :
  (focused a = Some FileTreeW -> visible (file_tree a) = true) ->
  release_hidden a = a.
Proof.
  intro H. unfold release_hidden.
  destruct (focused a) as [[|] |]; try reflexivity.
  now rewrite (H eq_refl).
Qed.

(** Blurring the content pane and focusing the tree, as Enter in the
    content pane, Tab and [h] do, gives the focus to a visible tree and
    leaves a hidden one without it. *)
Lemma to_tree_from_content (a : App) :
  focused a = Some ContentViewW ->
  focus FileTreeW (blur ContentViewW a)
  = mkApp (file_tree a) (content a)
      (if visible (file_tree a) then Some FileTreeW else None) (running a).
Proof.
  intro Hfoc. unfold blur. rewrite Hfoc. simpl.
  unfold focus, focusable; simpl. now destruct (visible (file_tree a)).
Qed.

Lemma handle_content_settled (key : string) (a : App) :
  focused a = Some ContentViewW ->
  release_hidden (handle key a) = handle key a.
Proof.
  intro Hfoc. apply release_hidden_settled.
  apply (handle_preserves
           (fun b => focused b = Some FileTreeW -> visible (file_tree b) = true)).
  - unfold widget_on_key. rewrite Hfoc. unfold ContentView.on_key.
    repeat match goal with
           | |- context [if (key =? ?k) then _ else _] =>
               destruct (key =? k); [simpl; congruence |]
           end.
    destruct (key =? "enter"); [| simpl; congruence].
    unfold ContentView.action_return_to_tree.
    rewrite (to_tree_from_content a Hfoc). simpl.
    destruct (visible (file_tree a)); [reflexivity | discriminate].
  - unfold MainScreen.on_key, MainScreen.action_switch_focus, has_focus.
    rewrite Hfoc. simpl.
    destruct (key =? "tab"); [| simpl; congruence]. simpl.
    rewrite (to_tree_from_content a Hfoc). simpl.
    destruct (visible (file_tree a)); [reflexivity | discriminate].
  - intros c _ _. simpl. congruence.
  - intros t Hf. congruence.
  - unfold MainScreen.bindings, MainScreen.action_toggle_sidebar,
      MainScreen.action_focus_viewer, MainScreen.action_focus_tree.
    destruct (key =? "q"); [simpl; congruence |].
    destruct (key =? "~").
    { unfold FileTree.toggle_visibility.
      destruct (visible (file_tree a)) eqn:E; simpl; [congruence | reflexivity]. }
    destruct ((key =? "f") || (key =? "k")); [rewrite focus_content; discriminate |].
    destruct (key =? "h"); [| congruence].
    rewrite (to_tree_from_content a Hfoc). simpl.
    destruct (visible (file_tree a)); [reflexivity | discriminate].
Qed.

(** A key pressed while the content pane holds the focus never moves the
    cursor of the tree, so the press is the chain of handlers alone. *)
Lemma press_content_focused (os : OS) (key : string) (a : App) :
  running a = true ->
  focused a = Some ContentViewW ->
  press os key a = handle key a.
Proof.
  intros Hrun Hfoc.
  unfold press. rewrite Hrun. simpl.
  rewrite (handle_content_settled key a Hfoc).
  rewrite <- (handle_content_cursor key a Hfoc).
  apply report_highlight_same.
Qed.

(** ** The [g] key *)

Lemma scroll_home_offset (c : ContentViewState) :
  scroll_y (ContentView.action_scroll_home c) = 0%Z.
Proof.
  unfold ContentView.action_scroll_home, set_scroll_y, validate_scroll_y,
    max_scroll_y; simpl. lia.
Qed.

Lemma toggle_visibility_scroll (a : App) :
  scroll_state (content (FileTree.toggle_visibility a)) = scroll_state (content a)
  /\ render_text (content (FileTree.toggle_visibility a)) = render_text (content a).
Proof.
  unfold FileTree.toggle_visibility.
  destruct (visible (file_tree a)); simpl; split; reflexivity.
Qed.

Lemma MainScreen_bindings_scroll (key : string) (a : App) :
  scroll_state (content (MainScreen.bindings key a)) = scroll_state (content a).
Proof.
  unfold MainScreen.bindings, MainScreen.action_toggle_sidebar,
    MainScreen.action_focus_viewer, MainScreen.action_focus_tree.
  destruct (key =? "q"); [reflexivity |].
  destruct (key =? "~"); [apply toggle_visibility_scroll |].
  destruct ((key =? "f") || (key =? "k")); [now focus_frames |].
  destruct (key =? "h"); [now focus_frames | reflexivity].
Qed.

Lemma MainScreen_on_key_content (key : string) (a : App) :
  content (fst (MainScreen.on_key key a)) = content a.
Proof.
  unfold MainScreen.on_key, MainScreen.action_switch_focus.
  destruct (key =? "tab"); [| reflexivity].
  destruct (has_focus FileTreeW a); simpl; now focus_frames.
Qed.

(** C1, as the code has it.  While the content pane holds the focus, [g]
    is the jump to the top by itself: nothing is buffered, the offset is
    0 as soon as [g] has been handled, over the viewport and content
    heights from before the [g], and the key that follows is handled on
    its own.  After [g] and any second key that is not one of the other
    scrolling keys ([j], [k], [G], Ctrl-d, Ctrl-u and the arrow and
    paging keys that run the same actions), the offset is still 0,
    whatever it was before the [g]. *)
Theorem g_scrolls_home_at_once (os : OS) (key2 : string) (a : App) :
  running a = true ->
  focused a = Some ContentViewW ->
  mem key2 ["j"; "k"; "G"; "ctrl+d"; "ctrl+u";
            "down"; "up"; "end"; "pagedown"; "pageup"] = false ->
  scroll_state (content (press os "g" a))
    = (0%Z, size_height (content a), virtual_height (content a))
  /\ scroll_y (content (press os key2 (press os "g" a))) = 0%Z.
Proof.
  intros Hrun Hfoc Hmem.
  assert (Hg : press os "g" a
               = with_content (ContentView.action_scroll_home (content a)) a).
  { rewrite (press_content_focused os "g" a Hrun Hfoc).
    unfold handle, widget_on_key. rewrite Hfoc. reflexivity. }
  assert (Hstate : scroll_state (content (press os "g" a))
                   = (0%Z, size_height (content a), virtual_height (content a))).
  { rewrite Hg. unfold scroll_state. simpl content.
    now rewrite scroll_home_offset. }
  split; [exact Hstate |].
  set (a1 := press os "g" a) in *.
  assert (Hrun1 : running a1 = true) by (subst a1; rewrite Hg; exact Hrun).
  assert (Hfoc1 : focused a1 = Some ContentViewW)
    by (subst a1; rewrite Hg; exact Hfoc).
  assert (Hy1 : scroll_y (content a1) = 0%Z)
    by (unfold scroll_state in Hstate; congruence).
  rewrite (press_content_focused os key2 a1 Hrun1 Hfoc1).
  unfold mem in Hmem; simpl in Hmem.
  repeat (apply orb_false_elim in Hmem; destruct Hmem as [? Hmem]).
  apply (handle_preserves (fun b => scroll_y (content b) = 0%Z)).
  - unfold widget_on_key, ContentView.on_key. rewrite Hfoc1.
    repeat match goal with
           | E : (key2 =? ?k) = false |- _ => rewrite E
           end.
    destruct (key2 =? "g"); [apply scroll_home_offset |].
    destruct (key2 =? "enter"); [| exact Hy1].
    unfold ContentView.action_return_to_tree; simpl. now focus_frames.
  - now rewrite MainScreen_on_key_content.
  - intros c _. unfold ContentView.inherited_bindings.
    repeat match goal with
           | E : (key2 =? ?k) = false |- _ => rewrite E
           end.
    destruct (key2 =? "home"); [| discriminate].
    intro Hc. injection Hc as <-. apply scroll_home_offset.
  - intros t Hf. congruence.
  - pose proof (MainScreen_bindings_scroll key2 a1) as Hb.
    unfold scroll_state in Hb. congruence.
Qed.

(** The content pane three lines down the welcome text, then [g]
    and [x]. *)
Lemma g_scrolls_home_at_once_witness :
  let a0 := presses bare_os ["tab"; "j"; "j"; "j"] (start [] 10 16) in
  scroll_state (content (press bare_os "g" a0)) = (0%Z, 10%Z, 16%Z)
  /\ scroll_y (content (press bare_os "x" (press bare_os "g" a0))) = 0%Z.
Proof.
  exact (g_scrolls_home_at_once bare_os "x"
           (presses bare_os ["tab"; "j"; "j"; "j"] (start [] 10 16))
           eq_refl eq_refl eq_refl).
Defined.

(** C1, as stated, fails: from offset 3, [g] followed by [x] leaves the
    offset at 0, not at the 3 it had before the [g]. *)
Lemma g_then_other_key_counterexample :
  let a0 := presses bare_os ["tab"; "j"; "j"; "j"] (start [] 10 16) in
  running a0 = true
  /\ focused a0 = Some ContentViewW
  /\ scroll_state (content a0) = (3%Z, 10%Z, 16%Z)
  /\ ("x" =? "g") = false
  /\ scroll_state (content (press bare_os "x" (press bare_os "g" a0)))
     = (0%Z, 10%Z, 16%Z)
  /\ scroll_state (content (press bare_os "x" (press bare_os "g" a0)))
     <> scroll_state (content a0).
Proof.
  vm_compute. repeat split; try reflexivity. discriminate.
Qed.

(** ** Focus *)




(** *** The focus and the sidebar *)

Lemma on_tree_node_highlighted_file_tree (os : OS) (node : option TreeNode) (a : App) :
  file_tree (FileTree.on_tree_node_highlighted os node a) = file_tree a.
Proof.
  unfold FileTree.on_tree_node_highlighted, IOCCCViewer.update_content.
  destruct node as [n |]; [| reflexivity].
  destruct (data n) as [path |]; [| reflexivity].
  destruct (negb (path =? "") && isfile os path).
  - destruct (read os path) as [text | e];
      match goal with |- context [if ?c then _ else _] => destruct c end;
      reflexivity.
  - destruct (isdir os path); [| reflexivity].
    destruct (listdir os path) as [names | e];
      match goal with |- context [if ?c then _ else _] => destruct c end;
      reflexivity.
Qed.

Lemma on_tree_node_highlighted_frame (os : OS) (node : option TreeNode) (a : App) :
  focused (FileTree.on_tree_node_highlighted os node a) = focused a
  /\ running (FileTree.on_tree_node_highlighted os node a) = running a
  /\ scroll_state (content (FileTree.on_tree_node_highlighted os node a))
     = scroll_state (content a).
Proof.
  unfold FileTree.on_tree_node_highlighted, IOCCCViewer.update_content.
  destruct node as [n |]; [| repeat split; reflexivity].
  destruct (data n) as [path |]; [| repeat split; reflexivity].
  destruct (negb (path =? "") && isfile os path).
  - destruct (read os path) as [text | e];
      match goal with |- context [if ?c then _ else _] => destruct c end;
      repeat split; reflexivity.
  - destruct (isdir os path); [| repeat split; reflexivity].
    destruct (listdir os path) as [names | e];
      match goal with |- context [if ?c then _ else _] => destruct c end;
      repeat split; reflexivity.
Qed.

Lemma report_highlight_file_tree (os : OS) (before : option (list nat)) (a : App) :
  file_tree (report_highlight os before a) = file_tree a.
Proof.
  unfold report_highlight.
  destruct before as [b |], (cursor (file_tree a)) as [c |]; try reflexivity.
  - destruct (addr_eqb b c); [reflexivity |].
    apply on_tree_node_highlighted_file_tree.
  - apply on_tree_node_highlighted_file_tree.
Qed.

Lemma report_highlight_frame (os : OS) (before : option (list nat)) (a : App) :
  focused (report_highlight os before a) = focused a
  /\ running (report_highlight os before a) = running a
  /\ scroll_state (content (report_highlight os before a))
     = scroll_state (content a).
Proof.
  unfold report_highlight.
  destruct before as [b |], (cursor (file_tree a)) as [c |];
    try (repeat split; reflexivity).
  - destruct (addr_eqb b c); [repeat split; reflexivity |].
    apply on_tree_node_highlighted_frame.
  - apply on_tree_node_highlighted_frame.
Qed.

Lemma same_view_refl (t : FileTreeState) : same_view t t.
Proof. now repeat split. Qed.

Lemma action_cursor_down_view (t : FileTreeState) :
  same_view (action_cursor_down t) t.
Proof.
  unfold action_cursor_down.
  destruct (cursor t) as [addr |]; [| apply same_view_refl].
  destruct (line_of addr (visible_lines (root t))) as [i |];
    [| apply same_view_refl].
  destruct (nth_error (visible_lines (root t)) (S i));
    [now repeat split | apply same_view_refl].
Qed.

Lemma action_cursor_up_view (t : FileTreeState) :
  same_view (action_cursor_up t) t.
Proof.
  unfold action_cursor_up.
  destruct (cursor t) as [addr |]; [| apply same_view_refl].
  destruct (line_of addr (visible_lines (root t))) as [[| i] |];
    try apply same_view_refl.
  destruct (nth_error (visible_lines (root t)) i);
    [now repeat split | apply same_view_refl].
Qed.

Lemma action_expand_node_view (t : FileTreeState) :
  same_view (FileTree.action_expand_node t) t.
Proof.
  unfold FileTree.action_expand_node.
  destruct (cursor t); [| apply same_view_refl].
  destruct (cursor_node t) as [n |]; [| apply same_view_refl].
  destruct (children n); [apply same_view_refl |].
  destruct (negb (is_expanded n)); [now repeat split | apply same_view_refl].
Qed.

Lemma action_collapse_node_view (t : FileTreeState) :
  same_view (FileTree.action_collapse_node t) t.
Proof.
  unfold FileTree.action_collapse_node.
  destruct (cursor t); [| apply same_view_refl].
  destruct (cursor_node t) as [n |]; [| apply same_view_refl].
  destruct (children n); [apply same_view_refl |].
  destruct (is_expanded n); [now repeat split | apply same_view_refl].
Qed.

Lemma action_toggle_node_view (t : FileTreeState) :
  same_view (action_toggle_node t) t.
Proof.
  unfold action_toggle_node.
  destruct (cursor t); [| apply same_view_refl].
  destruct (cursor_node t) as [n |]; [| apply same_view_refl].
  destruct (allow_expand n); [| apply same_view_refl].
  destruct (is_expanded n); now repeat split.
Qed.

Lemma FileTree_bindings_view (key : string) (t t' : FileTreeState) :
  FileTree.bindings key t = Some t' -> same_view t' t.
Proof.
  unfold FileTree.bindings.
  destruct (key =? "zo"); [intros [= <-]; apply action_expand_node_view |].
  destruct (key =? "zc"); [intros [= <-]; apply action_collapse_node_view |].
  destruct (key =? "up"); [intros [= <-]; apply action_cursor_up_view |].
  destruct (key =? "down"); [intros [= <-]; apply action_cursor_down_view |].
  destruct (key =? "space"); [intros [= <-]; apply action_toggle_node_view |].
  discriminate.
Qed.

Lemma FileTree_on_key_view (key : string) (a : App) :
  same_view (file_tree (fst (FileTree.on_key key a))) (file_tree a).
Proof.
  unfold FileTree.on_key.
  destruct (key =? "j"); [apply action_cursor_down_view |].
  destruct (key =? "k"); [apply action_cursor_up_view |].
  destruct (key =? "enter"); [| apply same_view_refl].
  destruct (cursor (file_tree a)); [| apply same_view_refl].
  destruct (cursor_node (file_tree a)) as [n |]; [| apply same_view_refl].
  destruct (children n).
  - simpl. focus_frames. apply same_view_refl.
  - destruct (is_expanded n); now repeat split.
Qed.

(** The cases of who holds the focus of [b] and whether its sidebar
    shows, for the handlers that move the focus. *)
Ltac focus_cases b :=
  unfold MainScreen.action_switch_focus, MainScreen.action_toggle_sidebar,
    MainScreen.action_focus_viewer, MainScreen.action_focus_tree,
    ContentView.action_return_to_tree, FileTree.toggle_visibility,
    release_hidden, focus, focusable, blur, has_focus;
  let t := fresh "t" in
  let f := fresh "f" in
  destruct b as [t ? f ?]; simpl in *;
  destruct f as [[|] |]; simpl in *;
  destruct (visible t) eqn:?;
  simpl in *; try congruence; try discriminate; try assumption.

Lemma run_held_while_visible (os : OS) (events : list Event) (a : App) :
  held_while_visible a -> held_while_visible (run os events a).
Proof.
  revert events a. apply run_preserves; unfold held_while_visible.
  - intros key b Hb.
    rewrite (proj1 (FileTree_on_key_view key b)).
    unfold FileTree.on_key.
    destruct (key =? "j"); [exact Hb |].
    destruct (key =? "k"); [exact Hb |].
    destruct (key =? "enter"); [| exact Hb].
    destruct (cursor (file_tree b)); [| exact Hb].
    destruct (cursor_node (file_tree b)) as [n |]; [| exact Hb].
    destruct (children n); [intros _; simpl; discriminate |].
    destruct (is_expanded n); exact Hb.
  - intros key b Hb. unfold ContentView.on_key.
    repeat match goal with
           | |- context [if (key =? ?k) then _ else _] =>
               destruct (key =? k); [exact Hb |]
           end.
    destruct (key =? "enter"); [| exact Hb].
    simpl fst. focus_cases b.
  - intros key b Hb. unfold MainScreen.on_key.
    destruct (key =? "tab"); [| exact Hb].
    simpl fst. focus_cases b.
  - intros key b c Hb Hf _. simpl. intros _. congruence.
  - intros key b t Hb Hf Ht. simpl. intros _. congruence.
  - intros key b Hb. unfold MainScreen.bindings.
    destruct (key =? "q"); [exact Hb |].
    destruct (key =? "~"); [focus_cases b |].
    destruct ((key =? "f") || (key =? "k")); [focus_cases b |].
    destruct (key =? "h"); [focus_cases b | exact Hb].
  - intros b Hb. focus_cases b.
  - intros node b Hb.
    rewrite on_tree_node_highlighted_file_tree.
    now rewrite (proj1 (on_tree_node_highlighted_frame os node b)).
  - intros viewport contentHeight b Hb. exact Hb.
Qed.

Lemma release_hidden_released (a : App) : released_while_hidden (release_hidden a).
Proof.
  unfold released_while_hidden, release_hidden.
  destruct (focused a) as [[|] |] eqn:Hf; simpl; try (rewrite Hf; discriminate).
  destruct (visible (file_tree a)) eqn:Hv; simpl; [congruence | discriminate].
Qed.

Lemma step_released_while_hidden (os : OS) (e : Event) (a : App) :
  released_while_hidden a -> released_while_hidden (step os e a).
Proof.
  intro H. destruct e as [key | viewport contentHeight]; simpl.
  - unfold press. destruct (negb (running a)); [exact H |].
    unfold released_while_hidden.
    rewrite report_highlight_file_tree.
    rewrite (proj1 (report_highlight_frame os _ _)).
    apply release_hidden_released.
  - destruct (negb (running a)); exact H.
Qed.

Lemma run_released_while_hidden (os : OS) (events : list Event) :
  forall a, released_while_hidden a -> released_while_hidden (run os events a).
Proof.
  unfold run. induction events as [| e events IH]; intros a H; simpl;
    [exact H |].
  apply IH. now apply step_released_while_hidden.
Qed.

(** [~] reaches the binding of the screen whoever holds the focus. *)
Lemma handle_toggle_sidebar (a : App) :
  handle "~" a = FileTree.toggle_visibility a.
Proof.
  unfold handle, widget_on_key, pane_bindings.
  destruct (focused a) as [[|] |] eqn:Hf; cbn; rewrite ?Hf; reflexivity.
Qed.

(** C4.  In every state the application reaches, a hidden sidebar does
    not hold the keyboard focus; and whenever [~] hides the sidebar of
    such a state, the focus is on the content pane afterwards, whether
    the tree or the content pane held it before. *)
Theorem hidden_sidebar_never_holds_focus
    (os : OS) (assets : list FsEntry) (viewport contentHeight : Z)
    (events : list Event) :
  let a := run os events (start assets viewport contentHeight) in
  (visible (file_tree a) = false -> focused a <> Some FileTreeW)
  /\ (running a = true ->
      visible (file_tree a) = true ->
      visible (file_tree (press os "~" a)) = false
      /\ focused (press os "~" a) = Some ContentViewW).
Proof.
  intro a. split.
  - apply run_released_while_hidden. unfold released_while_hidden. discriminate.
  - intros Hrun Hvis.
    assert (Hheld : held_while_visible a).
    { apply run_held_while_visible. unfold held_while_visible. discriminate. }
    specialize (Hheld Hvis).
    unfold press. rewrite Hrun. simpl negb. cbv iota.
    rewrite report_highlight_file_tree.
    rewrite (proj1 (report_highlight_frame os _ _)).
    rewrite handle_toggle_sidebar. unfold FileTree.toggle_visibility. rewrite Hvis. simpl.
    unfold release_hidden; simpl.
    destruct (focused a) as [[|] |]; [split; reflexivity .. | contradiction].
Qed.

Lemma hidden_sidebar_never_holds_focus_witness :
  let after_hiding := run demo_os [KeyPress "~"] (start demo_assets 10 16) in
  let shown := run demo_os [] (start demo_assets 10 16) in
  focused after_hiding <> Some FileTreeW
  /\ visible (file_tree (press demo_os "~" shown)) = false
  /\ focused (press demo_os "~" shown) = Some ContentViewW.
Proof.
  split.
  - apply (proj1 (hidden_sidebar_never_holds_focus demo_os demo_assets 10 16
                    [KeyPress "~"])). reflexivity.
  - apply (proj2 (hidden_sidebar_never_holds_focus demo_os demo_assets 10 16 []));
      reflexivity.
Defined.

(** C5, on the code.  With the cursor on an empty directory (a node made
    by [add], with no children) and the focus on the tree, Enter takes
    the branch written for files: the focus goes to the content pane,
    where the claim has the key do nothing. *)
Theorem enter_on_empty_directory_moves_focus :
  let a0 := press demo_os "j" (start demo_assets 10 16) in
  focused a0 = Some FileTreeW
  /\ option_map data (cursor_node (file_tree a0)) = Some (Some "assets/empty")
  /\ option_map allow_expand (cursor_node (file_tree a0)) = Some true
  /\ option_map children (cursor_node (file_tree a0)) = Some []
  /\ isdir demo_os "assets/empty" = true
  /\ focused (press demo_os "enter" a0) = Some ContentViewW
  /\ file_tree (press demo_os "enter" a0) = file_tree a0.
Proof.
  vm_compute. repeat split; reflexivity.
Qed.

(** ** Expanding and collapsing *)

Lemma alter_nth_restore {A : Type} (f g : A -> A) (i : nat) (l : list A) (x : A) :
  nth_error l i = Some x ->
  g (f x) = x ->
  alter_nth g i (alter_nth f i l) = l.
Proof.
  revert i; induction l as [| y l IH]; intros [| i] Hnth Hgf; simpl in *;
    try discriminate.
  - injection Hnth as ->. now rewrite Hgf.
  - f_equal. now apply IH.
Qed.

Lemma nth_error_alter_nth {A : Type} (f : A -> A) (i : nat) (l : list A) :
  nth_error (alter_nth f i l) i = option_map f (nth_error l i).
Proof.
  revert i; induction l as [| y l IH]; intros [| i]; simpl; auto.
Qed.

(** The node at an altered address is the altered node. *)
Lemma node_at_alter_at (f : TreeNode -> TreeNode) (addr : list nat) :
  forall (r n : TreeNode),
    node_at r addr = Some n ->
    node_at (alter_at f addr r) addr = Some (f n).
Proof.
  induction addr as [| i rest IH]; intros r n H; simpl in *.
  - now injection H as ->.
  - rewrite nth_error_alter_nth.
    destruct (nth_error (children r) i) as [c |]; [| discriminate].
    simpl. now apply IH.
Qed.

(** Undoing an in-place update at the same address gives the tree back. *)
Lemma alter_at_restore (f g : TreeNode -> TreeNode) (addr : list nat) :
  forall (r n : TreeNode),
    node_at r addr = Some n ->
    g (f n) = n ->
    alter_at g addr (alter_at f addr r) = r.
Proof.
  induction addr as [| i rest IH]; intros r n H Hgf; simpl in *.
  - injection H as ->. exact Hgf.
  - destruct r as [l d ae ex cs]; simpl in *.
    f_equal.
    destruct (nth_error cs i) as [c |] eqn:Hc; [| discriminate].
    apply (alter_nth_restore _ _ i cs c Hc).
    now apply (IH c n).
Qed.

(** What Enter does in the tree when the cursor is on a node with
    children: it sets the expansion flag of that node to its negation. *)
Lemma enter_toggles (a : App) (addr : list nat) (n : TreeNode) :
  cursor (file_tree a) = Some addr ->
  node_at (root (file_tree a)) addr = Some n ->
  children n <> [] ->
  fst (FileTree.on_key "enter" a)
  = with_file_tree
      (mkFileTree
         (alter_at (set_expanded (negb (is_expanded n))) addr (root (file_tree a)))
         (cursor (file_tree a)) (visible (file_tree a))
         (tree_width (file_tree a)) (tree_display (file_tree a))) a.
Proof.
  intros Hcur Hnode Hch.
  unfold FileTree.on_key, cursor_node; simpl.
  rewrite Hcur, Hnode.
  destruct (children n) as [| c cs]; [contradiction |].
  destruct (is_expanded n); unfold collapse, expand; simpl;
    rewrite Hcur; reflexivity.
Qed.

(** C8.  Enter is the toggle of the tree.  Pressed twice it gives back
    the tree it started from, the expansion flag of the node under the
    cursor and everything else; on a node with children the first press
    does negate the flag.  [action_expand_node] ([zo]) on a node that is
    already expanded, and [action_collapse_node] ([zc]) on a node that is
    already collapsed, leave the whole tree widget as it was. *)
Theorem expand_collapse_idempotence :
  (forall a : App,
      file_tree (fst (FileTree.on_key "enter" (fst (FileTree.on_key "enter" a))))
      = file_tree a)
  /\ (forall (a : App) (addr : list nat) (n : TreeNode),
         cursor (file_tree a) = Some addr ->
         node_at (root (file_tree a)) addr = Some n ->
         children n <> [] ->
         cursor_node (file_tree (fst (FileTree.on_key "enter" a)))
         = Some (set_expanded (negb (is_expanded n)) n))
  /\ (forall (t : FileTreeState) (n : TreeNode),
         cursor_node t = Some n ->
         is_expanded n = true ->
         FileTree.action_expand_node t = t)
  /\ (forall (t : FileTreeState) (n : TreeNode),
         cursor_node t = Some n ->
         is_expanded n = false ->
         FileTree.action_collapse_node t = t).
Proof.
  split; [| split; [| split]].
  - intro a.
    destruct (cursor (file_tree a)) as [addr |] eqn:Hcur.
    2:{ unfold FileTree.on_key, cursor_node; simpl. rewrite Hcur; simpl.
        unfold cursor_node. now rewrite Hcur. }
    destruct (node_at (root (file_tree a)) addr) as [n |] eqn:Hnode.
    2:{ unfold FileTree.on_key, cursor_node; simpl. rewrite Hcur, Hnode; simpl.
        unfold cursor_node. now rewrite Hcur, Hnode. }
    destruct (children n) as [| c cs] eqn:Hch.
    + unfold FileTree.on_key, cursor_node; simpl.
      rewrite Hcur, Hnode, Hch; simpl.
      unfold cursor_node, focus, blur.
      destruct (focused a) as [[|] |]; simpl; rewrite Hcur, Hnode, Hch;
        reflexivity.
    + assert (Hne : children n <> []) by (rewrite Hch; discriminate).
      rewrite (enter_toggles a addr n Hcur Hnode Hne).
      set (t1 := mkFileTree _ _ _ _ _).
      assert (Hnode1 : node_at (root (file_tree (with_file_tree t1 a))) addr
                       = Some (set_expanded (negb (is_expanded n)) n)).
      { simpl. now apply node_at_alter_at. }
      rewrite (enter_toggles (with_file_tree t1 a) addr _ Hcur Hnode1)
        by (simpl; exact Hne).
      simpl.
      rewrite (alter_at_restore _ _ addr (root (file_tree a)) n Hnode).
      * now destruct (file_tree a).
      * simpl. rewrite negb_involutive. now destruct n.
  - intros a addr n Hcur Hnode Hne.
    rewrite (enter_toggles a addr n Hcur Hnode Hne).
    unfold cursor_node; simpl. rewrite Hcur.
    now apply node_at_alter_at.
  - intros t n Hnode Hexp.
    unfold FileTree.action_expand_node. rewrite Hnode.
    destruct (cursor t); [| reflexivity].
    destruct (children n); [reflexivity |].
    now rewrite Hexp.
  - intros t n Hnode Hexp.
    unfold FileTree.action_collapse_node. rewrite Hnode.
    destruct (cursor t); [| reflexivity].
    destruct (children n); [reflexivity |].
    now rewrite Hexp.
Qed.

(** The cursor on [src], a directory with one file in it: collapsed at
    first, expanded after Enter. *)
Lemma expand_collapse_idempotence_witness :
  let a0 := presses demo_os ["j"; "j"] (start demo_assets 10 16) in
  let a1 := fst (FileTree.on_key "enter" a0) in
  file_tree (fst (FileTree.on_key "enter" a1)) = file_tree a0
  /\ option_map is_expanded (cursor_node (file_tree a0)) = Some false
  /\ option_map is_expanded (cursor_node (file_tree a1)) = Some true
  /\ FileTree.action_expand_node (file_tree a1) = file_tree a1
  /\ FileTree.action_collapse_node (file_tree a0) = file_tree a0.
Proof.
  intros a0 a1.
  destruct expand_collapse_idempotence as [Htwice [Hflip [Hzo Hzc]]].
  pose (n0 := match cursor_node (file_tree a0) with
              | Some n => n
              | None => mkNode "" None false false []
              end).
  assert (Hcur : cursor (file_tree a0) = Some [1%nat]) by reflexivity.
  assert (Hnode : node_at (root (file_tree a0)) [1%nat] = Some n0) by reflexivity.
  assert (Hne : children n0 <> []) by (vm_compute; discriminate).
  split; [apply Htwice | split; [reflexivity | split; [| split]]].
  - unfold a1. rewrite (Hflip a0 [1%nat] n0 Hcur Hnode Hne). reflexivity.
  - apply (Hzo (file_tree a1) (set_expanded true n0)).
    + unfold a1. rewrite (Hflip a0 [1%nat] n0 Hcur Hnode Hne). reflexivity.
    + reflexivity.
  - apply (Hzc (file_tree a0) n0); reflexivity.
Defined.

(** ** Loading on highlight *)

Lemma endswith_nonempty (s suf : string) :
  suf <> "" -> endswith s suf = true -> s <> "".
Proof.
  intros Hsuf H ->. simpl in H.
  destruct suf; [now apply Hsuf | discriminate].
Qed.

Lemma eqb_nonempty (s : string) : s <> "" -> negb (s =? "") = true.
Proof. intro H. apply negb_true_iff. now apply String.eqb_neq. Qed.

(** [update_content] with a text that is not empty installs that text
    and touches nothing but the buffer. *)
Lemma update_content_nonempty (lbl text : string) (a : App) :
  text <> "" ->
  IOCCCViewer.update_content lbl text a
  = with_content (ContentView.update text (content a)) a.
Proof.
  intro H. unfold IOCCCViewer.update_content. now rewrite (eqb_nonempty text H).
Qed.

(** C2, as the code has it.  Highlighting a node whose path ends in [.c],
    names a regular file and can be read puts the file's text, fenced as
    C, in the current buffer.  The load assigns nothing to the scroll
    position: offset, viewport height and content height are what they
    were before. *)
Theorem highlight_c_file_loads_fenced_text
    (os : OS) (n : TreeNode) (path text : string) (a : App) :
  data n = Some path ->
  endswith path ".c" = true ->
  isfile os path = true ->
  read os path = Returns text ->
  let a' := FileTree.on_tree_node_highlighted os (Some n) a in
  render_text (content a') = "```c" ++ nl ++ text ++ nl ++ "```"
  /\ scroll_state (content a') = scroll_state (content a).
Proof.
  intros Hdata Hc Hfile Hread a'. subst a'.
  unfold FileTree.on_tree_node_highlighted.
  rewrite Hdata, Hfile, Hread.
  rewrite (eqb_nonempty path) by (apply (endswith_nonempty path ".c"); [discriminate | exact Hc]).
  simpl.
  unfold FileTree.fenced. rewrite Hc.
  rewrite update_content_nonempty by discriminate.
  split; reflexivity.
Qed.

Lemma highlight_c_file_loads_fenced_text_witness :
  let a0 := run demo_os reading_hello (start demo_assets 10 16) in
  let n := add_leaf "main.c" "assets/src/main.c" in
  let a' := FileTree.on_tree_node_highlighted demo_os (Some n) a0 in
  render_text (content a') = "```c" ++ nl ++ c_source ++ nl ++ "```"
  /\ scroll_state (content a') = scroll_state (content a0).
Proof.
  exact (highlight_c_file_loads_fenced_text demo_os
           (add_leaf "main.c" "assets/src/main.c")
           "assets/src/main.c" c_source
           (run demo_os reading_hello (start demo_assets 10 16))
           eq_refl eq_refl eq_refl eq_refl).
Defined.

(** C2, as stated, fails in its last part: with [hello.c] on show and
    the content pane three lines down, moving the cursor of the tree
    onto [main.c] loads that file as C and leaves the offset at 3; the
    layout of the new text on its forty-two lines keeps it there. *)
Lemma select_c_file_keeps_offset_counterexample :
  let a0 := run demo_os reading_hello (start demo_assets 10 16) in
  let a1 := step demo_os (KeyPress "j") a0 in
  let a2 := step demo_os (Layout 10 42) a1 in
  scroll_state (content a0) = (3%Z, 10%Z, 42%Z)
  /\ option_map data (cursor_node (file_tree a1)) = Some (Some "assets/src/main.c")
  /\ render_text (content a1) = "```c" ++ nl ++ c_source ++ nl ++ "```"
  /\ scroll_y (content a1) = 3%Z
  /\ scroll_y (content a1) <> 0%Z
  /\ scroll_y (content a2) = 3%Z.
Proof.
  vm_compute. repeat split; try reflexivity. discriminate.
Qed.




(** Moving the cursor keeps a cursor. *)
Lemma action_cursor_down_cursor (t : FileTreeState) (addr : list nat) :
  cursor t = Some addr ->
  exists addr', cursor (action_cursor_down t) = Some addr'.
Proof.
  intro H. unfold action_cursor_down. rewrite H.
  destruct (line_of addr (visible_lines (root t))) as [i |];
    [| now exists addr].
  destruct (nth_error (visible_lines (root t)) (S i)) as [next |];
    [now exists next | now exists addr].
Qed.

(** What the highlight handler shows does not depend on the tree. *)
Lemma on_tree_node_highlighted_text
    (os : OS) (node : option TreeNode) (t : FileTreeState) (a : App) :
  render_text (content (FileTree.on_tree_node_highlighted os node
                          (with_file_tree t a)))
  = render_text (content (FileTree.on_tree_node_highlighted os node a)).
Proof.
  unfold FileTree.on_tree_node_highlighted, IOCCCViewer.update_content.
  destruct node as [n |]; [| reflexivity].
  destruct (data n) as [path |]; [| reflexivity].
  destruct (negb (path =? "") && isfile os path).
  - destruct (read os path) as [text | e];
      match goal with |- context [if ?c then _ else _] => destruct c end;
      reflexivity.
  - destruct (isdir os path); [| reflexivity].
    destruct (listdir os path) as [names | e];
      match goal with |- context [if ?c then _ else _] => destruct c end;
      reflexivity.
Qed.

(** C10.  The load is the work of the highlight handler alone; Enter has
    no part in it.  For a node whose path names a regular file the
    handler replaces the buffer: with the file's text inside a C fence
    when the path ends in [.c] or [.h], inside a makefile fence when it
    ends in [.mk] or has [Makefile] in it, as it is otherwise, and with
    the "No content available" line when there is nothing to show; with
    the error line when the read raises.  For a node whose path names a
    directory that can be listed, it replaces the buffer with the
    summary that counts the regular files and the directories among the
    names the directory lists.  And [j] in the tree, when it moves the
    cursor, puts in the buffer what that handler shows for the node the
    cursor has reached, as on [src] of the example, whose summary counts
    its two files. *)
Theorem highlight_loads_without_enter :
  (forall (os : OS) (n : TreeNode) (path text : string) (a : App),
      data n = Some path ->
      path <> "" ->
      isfile os path = true ->
      read os path = Returns text ->
      render_text (content (FileTree.on_tree_node_highlighted os (Some n) a))
      = if endswith path ".c" || endswith path ".h"
        then "```c" ++ nl ++ text ++ nl ++ "```"
        else if endswith path ".mk" || contains "Makefile" path
        then "```makefile" ++ nl ++ text ++ nl ++ "```"
        else if text =? "" then "No content available for " ++ label n
        else text)
  /\ (forall (os : OS) (n : TreeNode) (path e : string) (a : App),
         data n = Some path ->
         path <> "" ->
         isfile os path = true ->
         read os path = Raises e ->
         render_text (content (FileTree.on_tree_node_highlighted os (Some n) a))
         = "Error reading file: " ++ e)
  /\ (forall (os : OS) (n : TreeNode) (path : string) (names : list string) (a : App),
         data n = Some path ->
         isfile os path = false ->
         isdir os path = true ->
         listdir os path = Returns names ->
         render_text (content (FileTree.on_tree_node_highlighted os (Some n) a))
         = "# " ++ basename path ++ nl ++ nl
           ++ "This directory contains:" ++ nl
           ++ "- "
           ++ str_of_nat (List.length
                            (filter (fun f => isfile os (join path f)) names))
           ++ " files" ++ nl
           ++ "- "
           ++ str_of_nat (List.length
                            (filter (fun d => isdir os (join path d)) names))
           ++ " directories" ++ nl ++ nl
           ++ "Select a file to view its contents.")
  /\ (forall (os : OS) (a : App),
         running a = true ->
         focused a = Some FileTreeW ->
         visible (file_tree a) = true ->
         cursor (action_cursor_down (file_tree a)) <> cursor (file_tree a) ->
         file_tree (press os "j" a) = action_cursor_down (file_tree a)
         /\ focused (press os "j" a) = Some FileTreeW
         /\ render_text (content (press os "j" a))
            = render_text
                (content (FileTree.on_tree_node_highlighted os
                            (cursor_node (action_cursor_down (file_tree a)))
                            a)))
  /\ render_text
       (content (presses demo_os ["j"; "j"] (start demo_assets 10 16)))
     = "# src" ++ nl ++ nl
       ++ "This directory contains:" ++ nl
       ++ "- 2 files" ++ nl
       ++ "- 0 directories" ++ nl ++ nl
       ++ "Select a file to view its contents.".
Proof.
  split; [| split; [| split; [| split]]].
  - intros os n path text a Hdata Hpath Hfile Hread.
    unfold FileTree.on_tree_node_highlighted.
    rewrite Hdata, Hfile, Hread, (eqb_nonempty path Hpath). simpl andb. cbv iota.
    unfold FileTree.fenced, IOCCCViewer.update_content.
    destruct (endswith path ".c"); [reflexivity |].
    destruct (endswith path ".h"); [reflexivity |].
    simpl orb.
    destruct (endswith path ".mk" || contains "Makefile" path); [reflexivity |].
    destruct (text =? ""); reflexivity.
  - intros os n path e a Hdata Hpath Hfile Hread.
    unfold FileTree.on_tree_node_highlighted.
    rewrite Hdata, Hfile, Hread, (eqb_nonempty path Hpath). simpl andb. cbv iota.
    rewrite update_content_nonempty by discriminate. reflexivity.
  - intros os n path names a Hdata Hfile Hdir Hlist.
    unfold FileTree.on_tree_node_highlighted.
    rewrite Hdata, Hfile, Hdir, Hlist. rewrite andb_false_r.
    rewrite update_content_nonempty; [reflexivity |].
    unfold FileTree.summary. discriminate.
  - intros os a Hrun Hfoc Hvis Hmoved.
    unfold press. rewrite Hrun. simpl negb. cbv iota.
    assert (Hh : handle "j" a
                 = with_file_tree (action_cursor_down (file_tree a)) a).
    { unfold handle, widget_on_key. rewrite Hfoc. reflexivity. }
    rewrite Hh.
    rewrite release_hidden_settled.
    2:{ intros _. simpl.
        now rewrite (proj1 (action_cursor_down_view (file_tree a))). }
    assert (Hp : report_highlight os (cursor (file_tree a))
                   (with_file_tree (action_cursor_down (file_tree a)) a)
                 = FileTree.on_tree_node_highlighted os
                     (cursor_node (action_cursor_down (file_tree a)))
                     (with_file_tree (action_cursor_down (file_tree a)) a)).
    { unfold report_highlight. simpl.
      destruct (cursor (file_tree a)) as [b |] eqn:Hb.
      - destruct (action_cursor_down_cursor (file_tree a) b Hb) as [c Hc].
        rewrite Hc in *.
        destruct (addr_eqb b c) eqn:E; [| reflexivity].
        apply addr_eqb_eq in E. subst c. contradiction.
      - destruct (cursor (action_cursor_down (file_tree a))); [reflexivity |].
        contradiction. }
    rewrite Hp.
    split; [now rewrite on_tree_node_highlighted_file_tree |].
    split.
    + now rewrite (proj1 (on_tree_node_highlighted_frame os _ _)).
    + apply on_tree_node_highlighted_text.
  - vm_compute. reflexivity.
Qed.

Lemma highlight_loads_without_enter_witness :
  let a0 := start demo_assets 10 16 in
  render_text (content (FileTree.on_tree_node_highlighted demo_os
                          (Some (add_leaf "README.md" "assets/README.md")) a0))
  = "IOCCC winners"
  /\ render_text (content (FileTree.on_tree_node_highlighted demo_os
                             (Some (add_leaf "locked.txt" "assets/locked.txt")) a0))
     = "Error reading file: [Errno 13] Permission denied: 'assets/locked.txt'"
  /\ render_text (content (FileTree.on_tree_node_highlighted demo_os
                             (Some (add "src" "assets/src" [])) a0))
     = "# src" ++ nl ++ nl
       ++ "This directory contains:" ++ nl
       ++ "- 2 files" ++ nl
       ++ "- 0 directories" ++ nl ++ nl
       ++ "Select a file to view its contents."
  /\ file_tree (press demo_os "j" a0) = action_cursor_down (file_tree a0)
  /\ focused (press demo_os "j" a0) = Some FileTreeW
  /\ render_text (content (press demo_os "j" a0))
     = "# empty" ++ nl ++ nl
       ++ "This directory contains:" ++ nl
       ++ "- 0 files" ++ nl
       ++ "- 0 directories" ++ nl ++ nl
       ++ "Select a file to view its contents.".
Proof.
  destruct highlight_loads_without_enter as [Hfile [Herr [Hdir [Hkey _]]]].
  split; [| split; [| split]].
  - exact (Hfile demo_os (add_leaf "README.md" "assets/README.md")
             "assets/README.md" "IOCCC winners" (start demo_assets 10 16)
             eq_refl ltac:(discriminate) eq_refl eq_refl).
  - exact (Herr demo_os (add_leaf "locked.txt" "assets/locked.txt")
             "assets/locked.txt"
             "[Errno 13] Permission denied: 'assets/locked.txt'"
             (start demo_assets 10 16)
             eq_refl ltac:(discriminate) eq_refl eq_refl).
  - exact (Hdir demo_os (add "src" "assets/src" []) "assets/src"
             ["main.c"; "hello.c"] (start demo_assets 10 16)
             eq_refl eq_refl eq_refl eq_refl).
  - exact (Hkey demo_os (start demo_assets 10 16) eq_refl eq_refl eq_refl
             ltac:(vm_compute; discriminate)).
Defined.

(** ** The order of the listing *)

Lemma ascii_compare_refl (c : ascii) : Ascii.compare c c = Eq.
Proof. unfold Ascii.compare. apply N.compare_refl. Qed.

Lemma ascii_compare_lt_trans (a b c : ascii) :
  Ascii.compare a b = Lt -> Ascii.compare b c = Lt -> Ascii.compare a c = Lt.
Proof.
  unfold Ascii.compare. rewrite !N.compare_lt_iff. lia.
Qed.

(** The order of strings is transitive. *)
Lemma string_leb_trans (a b c : string) :
  (a <=? b) = true -> (b <=? c) = true -> (a <=? c) = true.
Proof.
  unfold String.leb.
  revert b c; induction a as [| ca a IH]; intros [| cb b] [| cc c]; simpl;
    try reflexivity; try discriminate.
  destruct (Ascii.compare ca cb) eqn:E1; try discriminate;
    destruct (Ascii.compare cb cc) eqn:E2; try discriminate.
  - apply Ascii.compare_eq_iff in E1, E2. subst cb cc.
    rewrite ascii_compare_refl. apply IH.
  - apply Ascii.compare_eq_iff in E1. subst cb. now rewrite E2.
  - apply Ascii.compare_eq_iff in E2. subst cc. now rewrite E1.
  - now rewrite (ascii_compare_lt_trans ca cb cc E1 E2).
Qed.

Lemma key_leb_total (k1 k2 : bool * string) :
  FileTree.key_leb k1 k2 = true \/ FileTree.key_leb k2 k1 = true.
Proof.
  destruct k1 as [[|] s1], k2 as [[|] s2]; unfold FileTree.key_leb; simpl;
    auto using String.leb_total.
Qed.

Lemma key_leb_trans (k1 k2 k3 : bool * string) :
  FileTree.key_leb k1 k2 = true -> FileTree.key_leb k2 k3 = true ->
  FileTree.key_leb k1 k3 = true.
Proof.
  destruct k1 as [[|] s1], k2 as [[|] s2], k3 as [[|] s3];
    unfold FileTree.key_leb; simpl; try discriminate; try reflexivity;
    apply string_leb_trans.
Qed.

Lemma Forall_insert_by_key (P : FsEntry -> Prop) (x : FsEntry) (l : list FsEntry) :
  P x -> Forall P l -> Forall P (FileTree.insert_by_key x l).
Proof.
  intros Hx Hl. induction Hl as [| y l Hy Hl IH]; simpl.
  - constructor; [exact Hx | constructor].
  - destruct (FileTree.key_leb _ _); repeat constructor; assumption.
Qed.

Lemma Forall_sorted (P : FsEntry -> Prop) (l : list FsEntry) :
  Forall P l -> Forall P (FileTree.sorted l).
Proof.
  induction 1 as [| x l Hx Hl IH]; simpl; [constructor |].
  now apply Forall_insert_by_key.
Qed.

Lemma insert_by_key_sorted (x : FsEntry) (l : list FsEntry) :
  StronglySorted entry_le l ->
  StronglySorted entry_le (FileTree.insert_by_key x l).
Proof.
  induction 1 as [| y l Hl IH Hy]; simpl.
  - repeat constructor.
  - destruct (FileTree.key_leb (FileTree.sort_key x) (FileTree.sort_key y)) eqn:E.
    + constructor; [now constructor |].
      constructor; [exact E |].
      eapply Forall_impl; [| exact Hy].
      intros z Hz. exact (key_leb_trans _ _ _ E Hz).
    + constructor; [exact IH |].
      apply Forall_insert_by_key; [| exact Hy].
      destruct (key_leb_total (FileTree.sort_key x) (FileTree.sort_key y)) as [H | H];
        [congruence | exact H].
Qed.

(** [sorted] puts directories first and orders by lower-cased name. *)
Lemma sorted_StronglySorted (l : list FsEntry) :
  StronglySorted entry_le (FileTree.sorted l).
Proof.
  induction l as [| x l IH]; simpl; [constructor |].
  now apply insert_by_key_sorted.
Qed.

(** ** Names of loaded nodes *)

Lemma contains_slash_cons (c : ascii) (name : string) :
  contains "/" (String c name) = false ->
  (c =? "/")%char = false /\ contains "/" name = false.
Proof.
  change (contains "/" (String c name))
    with (String.prefix "/" (String c name) || contains "/" name).
  intro H. apply orb_false_elim in H. destruct H as [Hc Hrest].
  split; [| exact Hrest].
  destruct (Ascii.eqb_spec c "/") as [-> | _]; [| reflexivity].
  cbn in Hc. destruct name; discriminate.
Qed.

Lemma basename_from_no_slash (acc name : string) :
  contains "/" name = false -> basename_from acc name = acc.
Proof.
  revert acc; induction name as [| c name IH]; intros acc H;
    [reflexivity |].
  apply contains_slash_cons in H. destruct H as [Hc Hrest].
  simpl. rewrite Hc. now apply IH.
Qed.

Lemma basename_from_child (acc path name : string) :
  contains "/" name = false ->
  basename_from acc (path ++ "/" ++ name) = name.
Proof.
  intro H. revert acc; induction path as [| c path IH]; intro acc; simpl.
  - now apply basename_from_no_slash.
  - destruct (c =? "/")%char; apply IH.
Qed.

(** [os.path.basename] of [path/name] is [name]. *)
Lemma basename_child (path name : string) :
  contains "/" name = false -> basename (path ++ "/" ++ name) = name.
Proof. intro H. unfold basename. now apply basename_from_child. Qed.

(** The same key orders a node and the entry it was made from. *)
Lemma key_leb_stands_before (n1 n2 : TreeNode) :
  FileTree.key_leb (negb (allow_expand n1), lower (name_of n1))
                   (negb (allow_expand n2), lower (name_of n2)) = true ->
  stands_before n1 n2.
Proof.
  unfold FileTree.key_leb, stands_before; simpl.
  destruct (allow_expand n1), (allow_expand n2); simpl; intro H;
    try discriminate; auto.
Qed.

Lemma valid_entry_name (e : FsEntry) :
  valid_entry e = true -> contains "/" (entry_name e) = false.
Proof.
  destruct e; simpl; intro H; apply andb_prop in H; destruct H as [H _];
    now apply negb_true_iff in H.
Qed.

Lemma valid_entry_entries (name : string) (entries : list FsEntry) :
  valid_entry (FsDir name entries) = true -> Forall (fun e => valid_entry e = true) entries.
Proof.
  simpl. intro H. apply andb_prop in H. destruct H as [_ H].
  apply Forall_forall. now apply forallb_forall.
Qed.

(** What [for_item_in] makes of its items: every node comes from an
    item that was not skipped, and has that item's name and kind. *)
Lemma for_item_in_origin
    (recur : string -> list FsEntry -> list TreeNode)
    (path : string) (items : list FsEntry) :
  Forall (fun e => valid_entry e = true) items ->
  Forall (fun c => exists item,
              In item items
              /\ excluded (entry_name item) = false
              /\ name_of c = entry_name item
              /\ allow_expand c = is_dir item)
         (FileTree.for_item_in recur path items).
Proof.
  induction 1 as [| item rest Hitem Hrest IH]; simpl; [constructor |].
  assert (Hweaken :
    Forall (fun c => exists item0,
                In item0 (item :: rest)
                /\ excluded (entry_name item0) = false
                /\ name_of c = entry_name item0
                /\ allow_expand c = is_dir item0)
           (FileTree.for_item_in recur path rest)).
  { eapply Forall_impl; [| exact IH].
    intros c [item0 [Hin Hrem]]. exists item0. split; [now right | exact Hrem]. }
  destruct (startswith (entry_name item) "." || (entry_name item =? "__pycache__"))
    eqn:Hskip; [exact Hweaken |].
  pose proof (valid_entry_name item Hitem) as Hname.
  destruct item as [name | name entries]; simpl in *;
    (constructor; [| exact Hweaken]).
  - exists (FsFile name). simpl. repeat split; auto.
    unfold name_of, add_leaf; simpl. now apply basename_child.
  - exists (FsDir name entries). simpl. repeat split; auto.
    unfold name_of, add; simpl. now apply basename_child.
Qed.

(** ** The loaded tree *)

Lemma subnodes_self (n : TreeNode) : In n (subnodes n).
Proof. destruct n; simpl; now left. Qed.

Lemma subnodes_child (n c m : TreeNode) :
  In c (children n) -> In m (subnodes c) -> In m (subnodes n).
Proof.
  intros Hc Hm. destruct n as [l d ae ex cs]; simpl in *. right.
  apply in_flat_map. now exists c.
Qed.

Lemma subnodes_inv (n m : TreeNode) :
  In m (subnodes n) ->
  m = n \/ exists c, In c (children n) /\ In m (subnodes c).
Proof.
  destruct n as [l d ae ex cs]; simpl. intros [H | H]; [now left | right].
  now apply in_flat_map in H.
Qed.

Lemma tree_in_order_intro (n : TreeNode) :
  children_in_order (children n) ->
  Forall tree_in_order (children n) ->
  tree_in_order n.
Proof.
  intros Hn Hcs m Hm.
  destruct (subnodes_inv n m Hm) as [-> | [c [Hc Hmc]]]; [exact Hn |].
  rewrite Forall_forall in Hcs. exact (Hcs c Hc m Hmc).
Qed.

(** A node made from an item goes in front of the nodes made from the
    items after it. *)
Lemma children_in_order_cons
    (recur : string -> list FsEntry -> list TreeNode)
    (path : string) (item : FsEntry) (rest : list FsEntry) (node : TreeNode) :
  name_of node = entry_name item ->
  allow_expand node = is_dir item ->
  excluded (entry_name item) = false ->
  Forall (entry_le item) rest ->
  Forall (fun e => valid_entry e = true) rest ->
  children_in_order (FileTree.for_item_in recur path rest) ->
  children_in_order (node :: FileTree.for_item_in recur path rest).
Proof.
  intros Hnm Hkind Hskip Hle Hvalid [IHs IHe].
  pose proof (for_item_in_origin recur path rest Hvalid) as Horigin.
  split.
  - constructor; [exact IHs |].
    rewrite Forall_forall in *. intros c Hc.
    destruct (Horigin c Hc) as [item' [Hin [_ [Hnm' Hkind']]]].
    apply key_leb_stands_before.
    rewrite Hnm, Hkind, Hnm', Hkind'. exact (Hle item' Hin).
  - constructor; [| exact IHe].
    rewrite Hnm. exact Hskip.
Qed.

(** The nodes [for_item_in] makes are in order when its items are. *)
Lemma for_item_in_order
    (recur : string -> list FsEntry -> list TreeNode)
    (path : string) (items : list FsEntry) :
  Forall (fun e => valid_entry e = true) items ->
  StronglySorted entry_le items ->
  children_in_order (FileTree.for_item_in recur path items).
Proof.
  intros Hvalid Hsorted.
  induction Hsorted as [| item rest Hrest IH Hle]; simpl.
  - split; constructor.
  - inversion Hvalid as [| ? ? Hitem Hvrest]; subst.
    specialize (IH Hvrest).
    destruct (startswith (entry_name item) "." || (entry_name item =? "__pycache__"))
      eqn:Hskip; [exact IH |].
    pose proof (valid_entry_name item Hitem) as Hname.
    destruct item as [name | name entries]; simpl in *.
    + apply (children_in_order_cons recur path (FsFile name)); auto.
      unfold name_of; simpl. now apply basename_child.
    + apply (children_in_order_cons recur path (FsDir name entries)); auto.
      unfold name_of; simpl. now apply basename_child.
Qed.

(** The subtrees [for_item_in] makes are in order when those of [recur]
    are. *)
Lemma for_item_in_subtrees
    (recur : string -> list FsEntry -> list TreeNode)
    (path : string) (items : list FsEntry) :
  (forall p entries,
      Forall (fun e => valid_entry e = true) entries ->
      children_in_order (recur p entries)
      /\ Forall tree_in_order (recur p entries)) ->
  Forall (fun e => valid_entry e = true) items ->
  Forall tree_in_order (FileTree.for_item_in recur path items).
Proof.
  intros Hrecur Hvalid.
  induction Hvalid as [| item rest Hitem Hrest IH]; simpl; [constructor |].
  destruct (startswith (entry_name item) "." || (entry_name item =? "__pycache__"));
    [exact IH |].
  destruct item as [name | name entries]; simpl; (constructor; [| exact IH]).
  - apply tree_in_order_intro; simpl; [split; constructor | constructor].
  - destruct (Hrecur (path ++ "/" ++ name) entries
                (valid_entry_entries name entries Hitem)) as [Hord Hsub].
    apply tree_in_order_intro; simpl; assumption.
Qed.

(** [add_to_tree] adds children in order, and in order all the way down,
    whatever its budget. *)
Lemma add_to_tree_in_order (budget : nat) :
  forall (path : string) (entries : list FsEntry),
    Forall (fun e => valid_entry e = true) entries ->
    children_in_order (FileTree.add_to_tree budget path entries)
    /\ Forall tree_in_order (FileTree.add_to_tree budget path entries).
Proof.
  induction budget as [| budget IH]; intros path entries Hvalid; simpl.
  - split; [split |]; constructor.
  - split.
    + apply for_item_in_order;
        [now apply Forall_sorted | apply sorted_StronglySorted].
    + apply for_item_in_subtrees; [exact IH | now apply Forall_sorted].
Qed.

(** *** The budget of [add_to_tree] *)

Lemma sorted_In (x : FsEntry) (l : list FsEntry) :
  In x (FileTree.sorted l) -> In x l.
Proof.
  intro H.
  assert (Hall : Forall (fun y => In y l) (FileTree.sorted l)).
  { apply Forall_sorted. now apply Forall_forall. }
  rewrite Forall_forall in Hall. now apply Hall.
Qed.

Lemma fs_depth_le_entries_depth (e : FsEntry) (entries : list FsEntry) :
  In e entries -> (fs_depth e <= entries_depth entries)%nat.
Proof.
  intro H. unfold entries_depth.
  assert (Hall : Forall (fun k => (k <= list_max (map fs_depth entries))%nat)
                        (map fs_depth entries)).
  { now apply list_max_le. }
  rewrite Forall_forall in Hall. apply Hall. now apply in_map.
Qed.

Lemma for_item_in_ext
    (recur1 recur2 : string -> list FsEntry -> list TreeNode)
    (path : string) (items : list FsEntry) :
  (forall name entries p,
      In (FsDir name entries) items -> recur1 p entries = recur2 p entries) ->
  FileTree.for_item_in recur1 path items = FileTree.for_item_in recur2 path items.
Proof.
  induction items as [| item rest IH]; intro H; simpl; [reflexivity |].
  rewrite IH by (intros name entries p Hin; apply (H name entries p); now right).
  destruct (startswith (entry_name item) "." || (entry_name item =? "__pycache__"));
    [reflexivity |].
  destruct item as [name | name entries]; [reflexivity |].
  now rewrite (H name entries _ (or_introl eq_refl)).
Qed.

(** Any budget above the depth of the listing gives the same children:
    the budget [load_directory] passes cuts nothing off. *)
Lemma add_to_tree_budget (budget1 : nat) :
  forall (budget2 : nat) (path : string) (entries : list FsEntry),
    (entries_depth entries < budget1)%nat ->
    (entries_depth entries < budget2)%nat ->
    FileTree.add_to_tree budget1 path entries
    = FileTree.add_to_tree budget2 path entries.
Proof.
  induction budget1 as [| budget1 IH]; intros [| budget2] path entries H1 H2;
    try lia.
  simpl. apply for_item_in_ext.
  intros name sub p Hin.
  apply sorted_In, fs_depth_le_entries_depth in Hin. simpl in Hin.
  fold (entries_depth sub) in Hin.
  apply IH; lia.
Qed.

(** The tree as [FileTree.on_mount] leaves it is in order. *)
Lemma on_mount_in_order (assets : list FsEntry) (t : FileTreeState) :
  children (root t) = [] ->
  Forall (fun e => valid_entry e = true) assets ->
  tree_in_order (root (FileTree.on_mount assets t)).
Proof.
  intros Hempty Hvalid.
  unfold FileTree.on_mount, FileTree.load_directory, expand; simpl.
  rewrite Hempty. simpl.
  destruct (add_to_tree_in_order (S (entries_depth assets)) "assets" assets Hvalid)
    as [Hord Hsub].
  apply tree_in_order_intro; simpl; assumption.
Qed.

(** ** The order survives expanding and collapsing *)

Lemma tree_in_order_children (r : TreeNode) :
  tree_in_order r -> Forall tree_in_order (children r).
Proof.
  intro Hr. apply Forall_forall. intros c Hc m Hm.
  exact (Hr m (subnodes_child r c m Hc Hm)).
Qed.

Lemma alter_at_name (b : bool) (addr : list nat) (n : TreeNode) :
  name_of (alter_at (set_expanded b) addr n) = name_of n
  /\ allow_expand (alter_at (set_expanded b) addr n) = allow_expand n.
Proof. destruct addr; split; reflexivity. Qed.

Lemma Forall_alter_nth {A : Type} (P : A -> Prop) (g : A -> A) (i : nat) (l : list A) :
  (forall x, P x -> P (g x)) -> Forall P l -> Forall P (alter_nth g i l).
Proof.
  intros Hg Hl. revert i.
  induction Hl as [| x l Hx Hl IH]; intros [| i]; simpl; constructor; auto.
Qed.

(** Replacing one child by a node of the same name and kind keeps the
    children in order. *)
Lemma children_in_order_alter_nth (g : TreeNode -> TreeNode) (i : nat)
    (cs : list TreeNode) :
  (forall c, name_of (g c) = name_of c /\ allow_expand (g c) = allow_expand c) ->
  children_in_order cs ->
  children_in_order (alter_nth g i cs).
Proof.
  intros Hg [Hs He]. split.
  - revert i. induction Hs as [| c cs Hs IH Hc]; intros [| i]; simpl.
    + constructor.
    + constructor.
    + constructor; [exact Hs |].
      eapply Forall_impl; [| exact Hc].
      intro c'. unfold stands_before.
      destruct (Hg c) as [-> ->]. auto.
    + inversion He; subst.
      constructor; [now apply IH |].
      apply Forall_alter_nth; [| exact Hc].
      intro c'. unfold stands_before.
      destruct (Hg c') as [-> ->]. auto.
  - apply Forall_alter_nth; [| exact He].
    intros c Hc. destruct (Hg c) as [-> _]. exact Hc.
Qed.

Lemma tree_in_order_alter_at (b : bool) (addr : list nat) :
  forall r : TreeNode,
    tree_in_order r -> tree_in_order (alter_at (set_expanded b) addr r).
Proof.
  induction addr as [| i rest IH]; intros r Hr; simpl;
    apply tree_in_order_intro; simpl.
  - exact (Hr r (subnodes_self r)).
  - now apply tree_in_order_children.
  - apply children_in_order_alter_nth.
    + intro c. apply alter_at_name.
    + exact (Hr r (subnodes_self r)).
  - apply Forall_alter_nth; [exact IH | now apply tree_in_order_children].
Qed.

(** Only the tree's own Enter changes the tree, and only by expanding or
    collapsing a node. *)
(** Moving the cursor leaves the nodes alone. *)
Lemma action_cursor_down_root (t : FileTreeState) :
  root (action_cursor_down t) = root t.
Proof.
  unfold action_cursor_down.
  destruct (cursor t) as [addr |]; [| reflexivity].
  destruct (line_of addr (visible_lines (root t))) as [i |]; [| reflexivity].
  now destruct (nth_error (visible_lines (root t)) (S i)).
Qed.

Lemma action_cursor_up_root (t : FileTreeState) :
  root (action_cursor_up t) = root t.
Proof.
  unfold action_cursor_up.
  destruct (cursor t) as [addr |]; [| reflexivity].
  destruct (line_of addr (visible_lines (root t))) as [[| i] |];
    try reflexivity.
  now destruct (nth_error (visible_lines (root t)) i).
Qed.

Lemma FileTree_on_key_in_order (key : string) (a : App) :
  tree_in_order (root (file_tree a)) ->
  tree_in_order (root (file_tree (fst (FileTree.on_key key a)))).
Proof.
  intro H. unfold FileTree.on_key.
  destruct (key =? "j"); [simpl; now rewrite action_cursor_down_root |].
  destruct (key =? "k"); [simpl; now rewrite action_cursor_up_root |].
  destruct (key =? "enter"); [| exact H].
  destruct (cursor (file_tree a)) as [addr |]; [| exact H].
  destruct (cursor_node (file_tree a)) as [n |]; [| exact H].
  destruct (children n); [| destruct (is_expanded n)]; simpl fst.
  - now focus_frames.
  - now apply tree_in_order_alter_at.
  - now apply tree_in_order_alter_at.
Qed.

Lemma FileTree_bindings_in_order (key : string) (t t' : FileTreeState) :
  tree_in_order (root t) ->
  FileTree.bindings key t = Some t' ->
  tree_in_order (root t').
Proof.
  intro H. unfold FileTree.bindings.
  destruct (key =? "zo").
  { intros [= <-]. unfold FileTree.action_expand_node.
    destruct (cursor t); [| exact H].
    destruct (cursor_node t) as [n |]; [| exact H].
    destruct (children n); [exact H |].
    destruct (negb (is_expanded n)); [| exact H].
    now apply tree_in_order_alter_at. }
  destruct (key =? "zc").
  { intros [= <-]. unfold FileTree.action_collapse_node.
    destruct (cursor t); [| exact H].
    destruct (cursor_node t) as [n |]; [| exact H].
    destruct (children n); [exact H |].
    destruct (is_expanded n); [| exact H].
    now apply tree_in_order_alter_at. }
  destruct (key =? "up"); [intros [= <-]; now rewrite action_cursor_up_root |].
  destruct (key =? "down");
    [intros [= <-]; now rewrite action_cursor_down_root |].
  destruct (key =? "space"); [| discriminate].
  intros [= <-]. unfold action_toggle_node.
  destruct (cursor t); [| exact H].
  destruct (cursor_node t) as [n |]; [| exact H].
  destruct (allow_expand n); [| exact H].
  destruct (is_expanded n); now apply tree_in_order_alter_at.
Qed.

Lemma run_in_order (os : OS) (events : list Event) (a : App) :
  tree_in_order (root (file_tree a)) ->
  tree_in_order (root (file_tree (run os events a))).
Proof.
  revert events a.
  apply (run_preserves (fun b => tree_in_order (root (file_tree b)))).
  - intros key b Hb. now apply FileTree_on_key_in_order.
  - intros key b Hb. now rewrite ContentView_on_key_file_tree.
  - intros key b Hb. now rewrite MainScreen_on_key_file_tree.
  - intros key b c Hb _ _. exact Hb.
  - intros key b t Hb _ Ht. simpl.
    now apply (FileTree_bindings_in_order key (file_tree b)).
  - intros key b Hb. now rewrite MainScreen_bindings_root.
  - intros b Hb. now focus_frames.
  - intros node b Hb. now rewrite on_tree_node_highlighted_file_tree.
  - intros viewport contentHeight b Hb. exact Hb.
Qed.

(** C6.  Over a listing whose names are file names in ASCII, the tree
    that [load_directory] builds at start-up has, at every node, the
    children in the order of the listing: directories before files,
    each kind by lower-cased name, and no child whose name starts with a
    dot or is [__pycache__].  No run of the event loop changes that: the
    property holds of every node of the tree in every state the
    application reaches. *)
Theorem loaded_tree_sorted_and_filtered
    (os : OS) (assets : list FsEntry) (viewport contentHeight : Z)
    (events : list Event) (m : TreeNode) :
  forallb valid_entry assets = true ->
  forallb ascii_entry assets = true ->
  In m (subnodes (root (file_tree (run os events (start assets viewport contentHeight))))) ->
  StronglySorted stands_before (children m)
  /\ Forall (fun c => startswith (name_of c) "." = false
                      /\ name_of c <> "__pycache__") (children m).
Proof.
  intros Hvalid _ Hm.
  assert (Hstart : tree_in_order (root (file_tree (start assets viewport contentHeight)))).
  { unfold start, MainScreen.on_mount. focus_frames. simpl file_tree.
    apply on_mount_in_order; [reflexivity |].
    apply Forall_forall. now apply forallb_forall. }
  destruct (run_in_order os events _ Hstart m Hm) as [Hs He].
  split; [exact Hs |].
  eapply Forall_impl; [| exact He].
  intros c Hc. unfold excluded in Hc.
  apply orb_false_elim in Hc. destruct Hc as [Hdot Hcache].
  split; [exact Hdot | now apply String.eqb_neq].
Qed.

(** The listing of [demo_assets], after a run that opens [src]. *)
Lemma loaded_tree_sorted_and_filtered_witness :
  let r := root (file_tree (run demo_os reading_hello (start demo_assets 10 16))) in
  StronglySorted stands_before (children r)
  /\ Forall (fun c => startswith (name_of c) "." = false
                      /\ name_of c <> "__pycache__") (children r).
Proof.
  exact (loaded_tree_sorted_and_filtered demo_os demo_assets 10 16 reading_hello
           (root (file_tree (run demo_os reading_hello (start demo_assets 10 16))))
           eq_refl eq_refl (subnodes_self _)).
Defined.


(** A listing with hidden entries, a build cache and names in both
    cases, as the tree shows it. *)
Example load_directory_example :
  let listing :=
    [FsFile "readme.md"; FsFile "Zeta.c"; FsFile ".gitignore";
     FsDir "src" [FsFile "main.c"; FsFile ".hidden"; FsDir "__pycache__" []];
     FsFile "Makefile"; FsDir "Empty" []; FsDir ".git" [FsFile "config"];
     FsFile "alpha.h"; FsDir "2020" [FsDir "x" [FsFile "prog.mk"]]] in
  let r := root (file_tree (start listing 10 16)) in
  map name_of (children r)
  = ["2020"; "Empty"; "src"; "alpha.h"; "Makefile"; "readme.md"; "Zeta.c"]
  /\ map (fun n => option_map (fun p => (p, allow_expand n)) (data n)) (subnodes r)
     = [None;
        Some ("assets/2020", true); Some ("assets/2020/x", true);
        Some ("assets/2020/x/prog.mk", false);
        Some ("assets/Empty", true);
        Some ("assets/src", true); Some ("assets/src/main.c", false);
        Some ("assets/alpha.h", false); Some ("assets/Makefile", false);
        Some ("assets/readme.md", false); Some ("assets/Zeta.c", false)].
Proof. split; reflexivity. Qed.

(** * Further properties *)

(** ** Focus *)

(** Cases on the key tests of a handler, first to last. *)
Ltac by_key key tac :=
  repeat match goal with
         | |- context [if (key =? ?k) then _ else _] =>
             destruct (key =? k) eqn:?; [tac |]
         end.

(** X1.  While the sidebar shows, the keyboard focus always has a
    holder: in every state the application reaches with the sidebar
    visible, the tree or the content pane holds the focus.  With the
    sidebar hidden the focus can be lost: Tab, [~], Tab from the start
    leaves it with nobody. *)
Theorem focus_held_while_sidebar_visible
    (os : OS) (assets : list FsEntry) (viewport contentHeight : Z)
    (events : list Event) :
  (visible (file_tree (run os events (start assets viewport contentHeight)))
   = true ->
   focused (run os events (start assets viewport contentHeight))
   = Some FileTreeW
   \/ focused (run os events (start assets viewport contentHeight))
      = Some ContentViewW)
  /\ visible (file_tree (presses demo_os ["tab"; "~"; "tab"]
                           (start demo_assets 10 16))) = false
  /\ focused (presses demo_os ["tab"; "~"; "tab"] (start demo_assets 10 16))
     = None.
Proof.
  split; [| split; vm_compute; reflexivity].
  intro Hvis.
  assert (H : held_while_visible
                (run os events (start assets viewport contentHeight))).
  { apply run_held_while_visible. unfold held_while_visible. discriminate. }
  specialize (H Hvis).
  destruct (focused _) as [[|] |]; auto. contradiction.
Qed.

Lemma focus_held_while_sidebar_visible_witness :
  let a := run demo_os [KeyPress "j"; KeyPress "enter"]
             (start demo_assets 10 16) in
  focused a = Some FileTreeW \/ focused a = Some ContentViewW.
Proof.
  exact (proj1 (focus_held_while_sidebar_visible demo_os demo_assets 10 16
                  [KeyPress "j"; KeyPress "enter"]) eq_refl).
Defined.

Lemma app_eta (a : App) :
  mkApp (file_tree a) (content a) (focused a) (running a) = a.
Proof. now destruct a. Qed.

(** Tab with the sidebar on show. *)
Lemma press_tab (os : OS) (b : App) (v : Widget) :
  running b = true ->
  focused b = Some v ->
  visible (file_tree b) = true ->
  press os "tab" b
  = mkApp (file_tree b) (content b)
      (Some match v with FileTreeW => ContentViewW | ContentViewW => FileTreeW end)
      true.
Proof.
  intros Hr Hf Hv. unfold press. rewrite Hr. simpl negb. cbv iota.
  assert (Hh : handle "tab" b
               = mkApp (file_tree b) (content b)
                   (Some match v with
                         | FileTreeW => ContentViewW
                         | ContentViewW => FileTreeW
                         end)
                   true).
  { unfold handle, widget_on_key. rewrite Hf.
    destruct v; simpl;
      unfold MainScreen.action_switch_focus, has_focus, focus, focusable, blur;
      rewrite Hf; simpl; rewrite ?Hv, ?Hr; reflexivity. }
  rewrite Hh.
  rewrite release_hidden_settled by (intros _; exact Hv).
  apply (report_highlight_same os (mkApp _ _ _ _)).
Qed.

(** X2.  With the sidebar on show, Tab hands the focus to the other
    pane, from the tree as from the content pane, and changes nothing
    else; pressed twice it gives back the state it started from. *)
Theorem tab_switches_pane (os : OS) (a : App) (w : Widget) :
  running a = true ->
  focused a = Some w ->
  visible (file_tree a) = true ->
  press os "tab" a
  = mkApp (file_tree a) (content a)
      (Some match w with FileTreeW => ContentViewW | ContentViewW => FileTreeW end)
      true
  /\ press os "tab" (press os "tab" a) = a.
Proof.
  intros Hrun Hfoc Hvis.
  split; [now apply press_tab |].
  rewrite (press_tab os a w Hrun Hfoc Hvis).
  rewrite (press_tab os (mkApp (file_tree a) (content a) _ true) _
             eq_refl eq_refl Hvis).
  simpl. rewrite <- (app_eta a) at 3. rewrite Hfoc, Hrun. now destruct w.
Qed.

Lemma tab_switches_pane_witness :
  let a0 := start demo_assets 10 16 in
  press demo_os "tab" a0
  = mkApp (file_tree a0) (content a0) (Some ContentViewW) true
  /\ press demo_os "tab" (press demo_os "tab" a0) = a0.
Proof.
  exact (tab_switches_pane demo_os (start demo_assets 10 16) FileTreeW
           eq_refl eq_refl eq_refl).
Defined.

(** ** The sidebar *)

(** [~] changes neither the nodes nor the cursor, so it loads nothing. *)
Lemma press_toggle_sidebar (os : OS) (a : App) :
  running a = true ->
  press os "~" a = release_hidden (FileTree.toggle_visibility a).
Proof.
  intro Hrun. unfold press. rewrite Hrun. simpl negb. cbv iota.
  rewrite handle_toggle_sidebar.
  assert (Hc : cursor (file_tree a)
               = cursor (file_tree (release_hidden (FileTree.toggle_visibility a)))).
  { focus_frames. unfold FileTree.toggle_visibility.
    destruct (visible (file_tree a)); simpl; now focus_frames. }
  rewrite Hc. apply report_highlight_same.
Qed.

(** The sidebar toggle, followed by the hand-over of the focus, written
    out: the visibility flips, the widths follow it, and the focus goes
    to the tree when the sidebar comes up and leaves it when the sidebar
    goes down. *)
Lemma toggle_then_release (a : App) :
  release_hidden (FileTree.toggle_visibility a)
  = let v := negb (visible (file_tree a)) in
    mkApp
      (mkFileTree (root (file_tree a)) (cursor (file_tree a)) v
         (if v then "30%" else "0") (if v then "block" else "none"))
      (mkContentView (render_text (content a)) (displayed (content a))
         (is_mounted (content a)) (scroll_y (content a))
         (size_height (content a)) (virtual_height (content a))
         (if v then "70%" else "100%"))
      (if v then Some FileTreeW
       else match focused a with
            | Some FileTreeW => Some ContentViewW
            | held => held
            end)
      (running a).
Proof.
  destruct a as [[rt cu v w d] c f r].
  destruct v, f as [[|] |]; reflexivity.
Qed.

(** X3.  Pressing [~] twice gives the sidebar back its visibility and
    leaves the nodes of the tree, the cursor and the text of the buffer
    alone; the widths and the display mode are the ones that go with
    that visibility.  The focus is not always given back: after the two
    presses it is with the tree when the sidebar shows, whoever held it
    before, and with the content pane when the sidebar is hidden. *)
Theorem toggle_sidebar_twice (os : OS) (a : App) :
  running a = true ->
  let a2 := press os "~" (press os "~" a) in
  visible (file_tree a2) = visible (file_tree a)
  /\ root (file_tree a2) = root (file_tree a)
  /\ cursor (file_tree a2) = cursor (file_tree a)
  /\ tree_width (file_tree a2) = (if visible (file_tree a) then "30%" else "0")
  /\ tree_display (file_tree a2) = (if visible (file_tree a) then "block" else "none")
  /\ content_width (content a2) = (if visible (file_tree a) then "70%" else "100%")
  /\ render_text (content a2) = render_text (content a)
  /\ focused a2 = (if visible (file_tree a)
                   then Some FileTreeW else Some ContentViewW).
Proof.
  intros Hrun a2. subst a2.
  rewrite (press_toggle_sidebar os a Hrun).
  rewrite press_toggle_sidebar
    by (rewrite toggle_then_release; exact Hrun).
  rewrite (toggle_then_release a).
  rewrite toggle_then_release. cbv zeta. cbn [file_tree content focused running
    root cursor visible tree_width tree_display render_text content_width].
  destruct (visible (file_tree a)), (focused a) as [[|] |]; cbn;
    repeat split; reflexivity.
Qed.

Lemma toggle_sidebar_twice_witness :
  let a0 := press demo_os "tab" (start demo_assets 10 16) in
  let a2 := press demo_os "~" (press demo_os "~" a0) in
  focused a0 = Some ContentViewW
  /\ visible (file_tree a2) = true
  /\ tree_width (file_tree a2) = "30%"
  /\ content_width (content a2) = "70%"
  /\ focused a2 = Some FileTreeW.
Proof.
  pose proof (toggle_sidebar_twice demo_os
                (press demo_os "tab" (start demo_assets 10 16)) eq_refl) as H.
  cbv zeta in H.
  destruct H as [Hv [_ [_ [Hw [_ [Hc [_ Hf]]]]]]].
  split; [vm_compute; reflexivity |].
  split; [vm_compute in Hv |- *; exact Hv |].
  split; [vm_compute in Hw |- *; exact Hw |].
  split; [vm_compute in Hc |- *; exact Hc |].
  vm_compute in Hf |- *; exact Hf.
Defined.

(** ** What a key can change *)

Lemma FileTree_on_key_content (key : string) (a : App) :
  content (fst (FileTree.on_key key a)) = content a.
Proof.
  unfold FileTree.on_key.
  destruct (key =? "j"); [reflexivity |].
  destruct (key =? "k"); [reflexivity |].
  destruct (key =? "enter"); [| reflexivity].
  destruct (cursor (file_tree a)); [| reflexivity].
  destruct (cursor_node (file_tree a)) as [n |]; [| reflexivity].
  destruct (children n); [| destruct (is_expanded n); reflexivity].
  simpl fst. now focus_frames.
Qed.



(** X5.  While the content pane holds the focus, the only key that
    touches the tree widget is the sidebar toggle: every other key
    leaves the tree, its cursor, its expansion flags and its visibility
    as they were. *)
Theorem content_keys_leave_the_tree (os : OS) (key : string) (a : App) :
  focused a = Some ContentViewW ->
  (key =? "~") = false ->
  file_tree (press os key a) = file_tree a.
Proof.
  intros Hfoc Hkey. unfold press. destruct (negb (running a)); [reflexivity |].
  rewrite report_highlight_file_tree. focus_frames.
  apply (handle_preserves (fun b => file_tree b = file_tree a)).
  - unfold widget_on_key. rewrite Hfoc. apply ContentView_on_key_file_tree.
  - apply MainScreen_on_key_file_tree.
  - reflexivity.
  - intros t Hf. congruence.
  - unfold MainScreen.bindings, MainScreen.action_focus_viewer,
      MainScreen.action_focus_tree. rewrite Hkey.
    destruct (key =? "q"); [reflexivity |].
    destruct ((key =? "f") || (key =? "k")); [now focus_frames |].
    destruct (key =? "h"); [now focus_frames | reflexivity].
Qed.

Lemma content_keys_leave_the_tree_witness :
  let a0 := press demo_os "tab" (start demo_assets 10 16) in
  file_tree (press demo_os "j" a0) = file_tree a0.
Proof.
  exact (content_keys_leave_the_tree demo_os "j"
           (press demo_os "tab" (start demo_assets 10 16)) eq_refl eq_refl).
Defined.

(** ** Enter, [zo] and [zc] in the tree *)

(** X6.  Enter in the tree never loads anything and never moves the
    cursor.  On a node without children (a file, or a directory with
    nothing listed in it) it hands the focus to the content pane and
    leaves the tree as it is; on a node with children it keeps the focus
    where it was. *)
Theorem enter_in_tree (a : App) :
  content (fst (FileTree.on_key "enter" a)) = content a
  /\ cursor (file_tree (fst (FileTree.on_key "enter" a))) = cursor (file_tree a)
  /\ (forall n, cursor_node (file_tree a) = Some n -> children n = [] ->
        focused (fst (FileTree.on_key "enter" a)) = Some ContentViewW
        /\ file_tree (fst (FileTree.on_key "enter" a)) = file_tree a)
  /\ (forall n, cursor_node (file_tree a) = Some n -> children n <> [] ->
        focused (fst (FileTree.on_key "enter" a)) = focused a).
Proof.
  split; [apply FileTree_on_key_content |].
  unfold FileTree.on_key; simpl.
  destruct (cursor (file_tree a)) as [addr |] eqn:Hcur.
  2:{ unfold cursor_node. rewrite Hcur.
      split; [exact Hcur | split; intros n Hn; discriminate]. }
  split; [| split]; intros.
  - destruct (cursor_node (file_tree a)) as [n |]; [| exact Hcur].
    destruct (children n); [| destruct (is_expanded n); exact Hcur].
    unfold focus, blur; simpl. destruct (focused a) as [[|] |]; exact Hcur.
  - rewrite H, H0. unfold focus, blur; simpl.
    destruct (focused a) as [[|] |]; split; reflexivity.
  - rewrite H. destruct (children n); [contradiction |].
    destruct (is_expanded n); reflexivity.
Qed.

Lemma enter_in_tree_witness :
  let on_file := presses demo_os ["j"; "j"; "j"] (start demo_assets 10 16) in
  let on_src := presses demo_os ["j"; "j"] (start demo_assets 10 16) in
  (focused (fst (FileTree.on_key "enter" on_file)) = Some ContentViewW
   /\ file_tree (fst (FileTree.on_key "enter" on_file)) = file_tree on_file)
  /\ focused (fst (FileTree.on_key "enter" on_src)) = focused on_src.
Proof.
  intros on_file on_src. split.
  - destruct (enter_in_tree on_file) as [_ [_ [H _]]].
    apply (H (add_leaf (label (match cursor_node (file_tree on_file) with
                               | Some n => n
                               | None => mkNode "" None false false []
                               end)) "assets/locked.txt")); reflexivity.
  - destruct (enter_in_tree on_src) as [_ [_ [_ H]]].
    apply (H (match cursor_node (file_tree on_src) with
              | Some n => n
              | None => mkNode "" None false false []
              end)); [reflexivity | vm_compute; discriminate].
Defined.

(** What [zo] does on a collapsed node with children, and [zc] on an
    expanded one. *)
Lemma action_expand_node_collapsed (t : FileTreeState) (addr : list nat) (n : TreeNode) :
  cursor t = Some addr ->
  node_at (root t) addr = Some n ->
  children n <> [] ->
  is_expanded n = false ->
  FileTree.action_expand_node t = expand addr t
  /\ cursor_node (expand addr t) = Some (set_expanded true n).
Proof.
  intros Hcur Hnode Hch Hex. split.
  - unfold FileTree.action_expand_node, cursor_node. rewrite Hcur, Hnode.
    destruct (children n); [contradiction |]. now rewrite Hex.
  - unfold cursor_node, expand; simpl. rewrite Hcur.
    now apply node_at_alter_at.
Qed.

Lemma action_collapse_node_expanded (t : FileTreeState) (addr : list nat) (n : TreeNode) :
  cursor t = Some addr ->
  node_at (root t) addr = Some n ->
  children n <> [] ->
  is_expanded n = true ->
  FileTree.action_collapse_node t = collapse addr t
  /\ cursor_node (collapse addr t) = Some (set_expanded false n).
Proof.
  intros Hcur Hnode Hch Hex. split.
  - unfold FileTree.action_collapse_node, cursor_node. rewrite Hcur, Hnode.
    destruct (children n); [contradiction |]. now rewrite Hex.
  - unfold cursor_node, collapse; simpl. rewrite Hcur.
    now apply node_at_alter_at.
Qed.

Lemma action_expand_node_other (t : FileTreeState) :
  (forall addr n, cursor t = Some addr -> node_at (root t) addr = Some n ->
                  children n = [] \/ is_expanded n = true) ->
  FileTree.action_expand_node t = t.
Proof.
  intro H. unfold FileTree.action_expand_node, cursor_node.
  destruct (cursor t) as [addr |] eqn:Hcur; [| reflexivity].
  destruct (node_at (root t) addr) as [n |] eqn:Hnode; [| reflexivity].
  destruct (H addr n eq_refl Hnode) as [-> | ->]; [reflexivity |].
  now destruct (children n).
Qed.

Lemma action_collapse_node_other (t : FileTreeState) :
  (forall addr n, cursor t = Some addr -> node_at (root t) addr = Some n ->
                  children n = [] \/ is_expanded n = false) ->
  FileTree.action_collapse_node t = t.
Proof.
  intro H. unfold FileTree.action_collapse_node, cursor_node.
  destruct (cursor t) as [addr |] eqn:Hcur; [| reflexivity].
  destruct (node_at (root t) addr) as [n |] eqn:Hnode; [| reflexivity].
  destruct (H addr n eq_refl Hnode) as [-> | ->]; [reflexivity |].
  now destruct (children n).
Qed.

Lemma file_tree_eta (t : FileTreeState) :
  mkFileTree (root t) (cursor t) (visible t) (tree_width t) (tree_display t) = t.
Proof. now destruct t. Qed.

(** X7.  [zo] and [zc] undo each other and repeat harmlessly.  Each is
    idempotent; on a collapsed node [zc] after [zo] gives back the whole
    tree widget, and on an expanded node [zo] after [zc] does. *)
Theorem zo_zc_round_trip :
  (forall t, FileTree.action_expand_node (FileTree.action_expand_node t)
             = FileTree.action_expand_node t)
  /\ (forall t, FileTree.action_collapse_node (FileTree.action_collapse_node t)
                = FileTree.action_collapse_node t)
  /\ (forall t n, cursor_node t = Some n -> is_expanded n = false ->
        FileTree.action_collapse_node (FileTree.action_expand_node t) = t)
  /\ (forall t n, cursor_node t = Some n -> is_expanded n = true ->
        FileTree.action_expand_node (FileTree.action_collapse_node t) = t).
Proof.
  assert (Hcases : forall t,
    (exists addr n, cursor t = Some addr /\ node_at (root t) addr = Some n
                    /\ children n <> [])
    \/ (FileTree.action_expand_node t = t /\ FileTree.action_collapse_node t = t)).
  { intro t. destruct (cursor t) as [addr |] eqn:Hcur.
    - destruct (node_at (root t) addr) as [n |] eqn:Hnode.
      + destruct (children n) as [| c cs] eqn:Hch.
        * right. split;
            [apply action_expand_node_other | apply action_collapse_node_other];
            intros addr' n' E1 E2; left; congruence.
        * left. exists addr, n. repeat split; auto. rewrite Hch. discriminate.
      + right. split;
          [apply action_expand_node_other | apply action_collapse_node_other];
          intros addr' n' E1 E2; congruence.
    - right. split;
        [apply action_expand_node_other | apply action_collapse_node_other];
        intros addr' n' E1 E2; congruence. }
  assert (Hzo : forall t addr n, cursor t = Some addr ->
            node_at (root t) addr = Some n -> children n <> [] ->
            is_expanded n = true -> FileTree.action_expand_node t = t).
  { intros t addr n Hc Hn Hch Hex. apply action_expand_node_other.
    intros addr' n' E1 E2. right. congruence. }
  assert (Hzc : forall t addr n, cursor t = Some addr ->
            node_at (root t) addr = Some n -> children n <> [] ->
            is_expanded n = false -> FileTree.action_collapse_node t = t).
  { intros t addr n Hc Hn Hch Hex. apply action_collapse_node_other.
    intros addr' n' E1 E2. right. congruence. }
  split; [| split; [| split]].
  - intro t. destruct (Hcases t) as [[addr [n [Hc [Hn Hch]]]] | [H _]];
      [| now rewrite !H].
    destruct (is_expanded n) eqn:Hex.
    + now rewrite !(Hzo t addr n Hc Hn Hch Hex).
    + destruct (action_expand_node_collapsed t addr n Hc Hn Hch Hex) as [-> Hnode'].
      unfold cursor_node in Hnode'. simpl in Hnode'. rewrite Hc in Hnode'.
      apply (Hzo (expand addr t) addr (set_expanded true n)); auto.
  - intro t. destruct (Hcases t) as [[addr [n [Hc [Hn Hch]]]] | [_ H]];
      [| now rewrite !H].
    destruct (is_expanded n) eqn:Hex.
    + destruct (action_collapse_node_expanded t addr n Hc Hn Hch Hex) as [-> Hnode'].
      unfold cursor_node in Hnode'. simpl in Hnode'. rewrite Hc in Hnode'.
      apply (Hzc (collapse addr t) addr (set_expanded false n)); auto.
    + now rewrite !(Hzc t addr n Hc Hn Hch Hex).
  - intros t n Hnode Hex.
    destruct (Hcases t) as [[addr [n' [Hc [Hn Hch]]]] | [H1 H2]];
      [| now rewrite H1, H2].
    assert (n' = n) by (unfold cursor_node in Hnode; rewrite Hc in Hnode; congruence).
    subst n'.
    destruct (action_expand_node_collapsed t addr n Hc Hn Hch Hex) as [-> Hnode'].
    unfold cursor_node in Hnode'. simpl in Hnode'. rewrite Hc in Hnode'.
    destruct (action_collapse_node_expanded (expand addr t) addr
                (set_expanded true n) Hc Hnode' Hch eq_refl) as [-> _].
    unfold collapse, expand; simpl.
    rewrite (alter_at_restore _ _ addr (root t) n Hn);
      [apply file_tree_eta |].
    destruct n; simpl in *; now subst.
  - intros t n Hnode Hex.
    destruct (Hcases t) as [[addr [n' [Hc [Hn Hch]]]] | [H1 H2]];
      [| now rewrite H2, H1].
    assert (n' = n) by (unfold cursor_node in Hnode; rewrite Hc in Hnode; congruence).
    subst n'.
    destruct (action_collapse_node_expanded t addr n Hc Hn Hch Hex) as [-> Hnode'].
    unfold cursor_node in Hnode'. simpl in Hnode'. rewrite Hc in Hnode'.
    destruct (action_expand_node_collapsed (collapse addr t) addr
                (set_expanded false n) Hc Hnode' Hch eq_refl) as [-> _].
    unfold collapse, expand; simpl.
    rewrite (alter_at_restore _ _ addr (root t) n Hn);
      [apply file_tree_eta |].
    destruct n; simpl in *; now subst.
Qed.

Lemma zo_zc_round_trip_witness :
  let t0 := file_tree (presses demo_os ["j"; "j"] (start demo_assets 10 16)) in
  let t1 := FileTree.action_expand_node t0 in
  option_map is_expanded (cursor_node t1) = Some true
  /\ FileTree.action_collapse_node t1 = t0
  /\ FileTree.action_expand_node (FileTree.action_collapse_node t1) = t1.
Proof.
  intros t0 t1.
  destruct zo_zc_round_trip as [_ [_ [Hco Hec]]].
  split; [reflexivity | split].
  - apply (Hco t0 (match cursor_node t0 with
                   | Some n => n
                   | None => mkNode "" None false false []
                   end)); reflexivity.
  - apply (Hec t1 (match cursor_node t1 with
                   | Some n => n
                   | None => mkNode "" None false false []
                   end)); reflexivity.
Defined.

(** X8.  On a node with children, Enter in the tree is [zc] when the
    node is expanded and [zo] when it is collapsed: the key and the two
    actions change the tree widget in the same way. *)
Theorem enter_is_zo_or_zc (a : App) (n : TreeNode) :
  cursor_node (file_tree a) = Some n ->
  children n <> [] ->
  file_tree (fst (FileTree.on_key "enter" a))
  = if is_expanded n
    then FileTree.action_collapse_node (file_tree a)
    else FileTree.action_expand_node (file_tree a).
Proof.
  intros Hnode Hch.
  unfold FileTree.on_key, FileTree.action_collapse_node,
    FileTree.action_expand_node; simpl.
  rewrite Hnode.
  destruct (cursor (file_tree a)) as [addr |] eqn:Hcur.
  2:{ unfold cursor_node in Hnode. rewrite Hcur in Hnode. discriminate. }
  destruct (children n); [contradiction |].
  destruct (is_expanded n); reflexivity.
Qed.

Lemma enter_is_zo_or_zc_witness :
  let a0 := presses demo_os ["j"; "j"] (start demo_assets 10 16) in
  file_tree (fst (FileTree.on_key "enter" a0))
  = FileTree.action_expand_node (file_tree a0).
Proof.
  intro a0.
  exact (enter_is_zo_or_zc a0
           (match cursor_node (file_tree a0) with
            | Some n => n
            | None => mkNode "" None false false []
            end) eq_refl ltac:(vm_compute; discriminate)).
Defined.

(** ** The highlight handler at its edges *)

(** X9.  Highlights that load nothing.  With no node, with the root
    (which carries no path), and with a path that is by now neither a
    regular file nor a directory, the handler leaves the whole
    application as it was: the buffer that was on show stays. *)
Theorem highlight_without_effect (os : OS) (a : App) :
  FileTree.on_tree_node_highlighted os None a = a
  /\ (forall n, data n = None ->
        FileTree.on_tree_node_highlighted os (Some n) a = a)
  /\ (forall n path, data n = Some path ->
        path = "" \/ isfile os path = false ->
        isdir os path = false ->
        FileTree.on_tree_node_highlighted os (Some n) a = a).
Proof.
  split; [reflexivity | split].
  - intros n H. unfold FileTree.on_tree_node_highlighted. now rewrite H.
  - intros n path Hdata Hfile Hdir.
    unfold FileTree.on_tree_node_highlighted. rewrite Hdata, Hdir.
    destruct Hfile as [-> | ->]; [reflexivity |].
    now rewrite andb_false_r.
Qed.

Lemma highlight_without_effect_witness :
  let a0 := run demo_os reading_hello (start demo_assets 10 16) in
  FileTree.on_tree_node_highlighted demo_os (Some (root (file_tree a0))) a0 = a0
  /\ FileTree.on_tree_node_highlighted demo_os
       (Some (add_leaf "gone.c" "assets/gone.c")) a0 = a0.
Proof.
  intro a0. destruct (highlight_without_effect demo_os a0) as [_ [Hroot Hgone]].
  split.
  - apply Hroot. reflexivity.
  - apply (Hgone _ "assets/gone.c"); [reflexivity | right; reflexivity | reflexivity].
Defined.

(** X10.  When the highlighted path is a directory and listing it
    raises, the handler catches the exception: the buffer becomes
    ["Error reading directory: "] followed by the message, and the tree,
    the focus, the running flag and the scroll position are as
    before. *)
Theorem listing_failure_shown_inline
    (os : OS) (n : TreeNode) (path message : string) (a : App) :
  data n = Some path ->
  isfile os path = false ->
  isdir os path = true ->
  listdir os path = Raises message ->
  let a' := FileTree.on_tree_node_highlighted os (Some n) a in
  render_text (content a') = "Error reading directory: " ++ message
  /\ file_tree a' = file_tree a
  /\ focused a' = focused a
  /\ running a' = running a
  /\ scroll_state (content a') = scroll_state (content a).
Proof.
  intros Hdata Hfile Hdir Hlist a'. subst a'.
  unfold FileTree.on_tree_node_highlighted.
  rewrite Hdata, Hfile, Hdir, Hlist, andb_false_r.
  rewrite update_content_nonempty by discriminate.
  repeat split; reflexivity.
Qed.

Lemma listing_failure_shown_inline_witness :
  let os := mkOS (fun _ => false) (fun p => p =? "assets/private")
                 (fun _ => Raises "unused")
                 (fun _ => Raises "[Errno 13] Permission denied: 'assets/private'") in
  let a0 := start demo_assets 10 16 in
  let a' := FileTree.on_tree_node_highlighted os
              (Some (add "private" "assets/private" [])) a0 in
  render_text (content a')
  = "Error reading directory: [Errno 13] Permission denied: 'assets/private'"
  /\ file_tree a' = file_tree a0
  /\ focused a' = focused a0
  /\ running a' = running a0
  /\ scroll_state (content a') = scroll_state (content a0).
Proof.
  exact (listing_failure_shown_inline
           (mkOS (fun _ => false) (fun p => p =? "assets/private")
                 (fun _ => Raises "unused")
                 (fun _ => Raises "[Errno 13] Permission denied: 'assets/private'"))
           (add "private" "assets/private" []) "assets/private"
           "[Errno 13] Permission denied: 'assets/private'"
           (start demo_assets 10 16) eq_refl eq_refl eq_refl eq_refl).
Defined.

(** X11.  An empty file.  When the file that is read has no text, a
    path with none of the marks of the [if]/[elif] chain gets the line
    ["No content available for "] and the node's label; a path that ends
    in [.c] gets an empty C fence instead, never that line. *)
Theorem empty_file_display (os : OS) (n : TreeNode) (path : string) (a : App) :
  data n = Some path ->
  path <> "" ->
  isfile os path = true ->
  read os path = Returns "" ->
  (endswith path ".c" = false -> endswith path ".h" = false ->
   endswith path ".mk" = false -> contains "Makefile" path = false ->
   render_text (content (FileTree.on_tree_node_highlighted os (Some n) a))
   = "No content available for " ++ label n)
  /\ (endswith path ".c" = true ->
      render_text (content (FileTree.on_tree_node_highlighted os (Some n) a))
      = "```c" ++ nl ++ nl ++ "```").
Proof.
  intros Hdata Hpath Hfile Hread.
  unfold FileTree.on_tree_node_highlighted.
  rewrite Hdata, Hfile, Hread, (eqb_nonempty path Hpath). simpl andb. cbv iota.
  unfold FileTree.fenced. split.
  - intros -> -> -> ->. reflexivity.
  - intros ->. reflexivity.
Qed.

Lemma empty_file_display_witness :
  let os := mkOS (fun _ => true) (fun _ => false)
                 (fun _ => Returns "") (fun _ => Raises "not a directory") in
  let a0 := start demo_assets 10 16 in
  render_text (content (FileTree.on_tree_node_highlighted os
                          (Some (add_leaf "notes" "assets/notes.txt")) a0))
  = "No content available for notes"
  /\ render_text (content (FileTree.on_tree_node_highlighted os
                             (Some (add_leaf "empty.c" "assets/empty.c")) a0))
     = "```c" ++ nl ++ nl ++ "```".
Proof.
  intros os a0. split.
  - apply (proj1 (empty_file_display os (add_leaf "notes" "assets/notes.txt")
                    "assets/notes.txt" a0 eq_refl ltac:(discriminate) eq_refl eq_refl));
      reflexivity.
  - apply (proj2 (empty_file_display os (add_leaf "empty.c" "assets/empty.c")
                    "assets/empty.c" a0 eq_refl ltac:(discriminate) eq_refl eq_refl));
      reflexivity.
Defined.

(** ** The buffer on show *)

Lemma update_content_shown (lbl text : string) (a : App) :
  is_mounted (content a) = true ->
  buffer_shown (content (IOCCCViewer.update_content lbl text a)).
Proof.
  intro Hm. unfold IOCCCViewer.update_content, buffer_shown.
  destruct (text =? "") eqn:E; simpl; rewrite Hm; repeat split; try discriminate.
  now apply String.eqb_neq.
Qed.

Lemma on_tree_node_highlighted_shown (os : OS) (node : option TreeNode) (a : App) :
  buffer_shown (content a) ->
  buffer_shown (content (FileTree.on_tree_node_highlighted os node a)).
Proof.
  intro H. pose proof (proj1 H) as Hm.
  unfold FileTree.on_tree_node_highlighted.
  destruct node as [n |]; [| exact H].
  destruct (data n) as [path |]; [| exact H].
  destruct (negb (path =? "") && isfile os path).
  - destruct (read os path); now apply update_content_shown.
  - destruct (isdir os path); [| exact H].
    destruct (listdir os path); now apply update_content_shown.
Qed.

Lemma set_scroll_y_shown (value : Z) (c : ContentViewState) :
  buffer_shown c -> buffer_shown (set_scroll_y value c).
Proof. intro H. exact H. Qed.

Lemma ContentView_on_key_shown (key : string) (a : App) :
  buffer_shown (content a) ->
  buffer_shown (content (fst (ContentView.on_key key a))).
Proof.
  intro H. unfold ContentView.on_key.
  by_key key ltac:(exact H).
  destruct (key =? "enter"); [| exact H].
  unfold ContentView.action_return_to_tree; simpl fst. now focus_frames.
Qed.

Lemma inherited_bindings_shown (key : string) (c c' : ContentViewState) :
  buffer_shown c ->
  ContentView.inherited_bindings key c = Some c' ->
  buffer_shown c'.
Proof.
  intro H. unfold ContentView.inherited_bindings.
  by_key key ltac:(intros [= <-]; exact H).
  discriminate.
Qed.

Lemma MainScreen_bindings_shown (key : string) (a : App) :
  buffer_shown (content a) ->
  buffer_shown (content (MainScreen.bindings key a)).
Proof.
  intro H. unfold MainScreen.bindings, MainScreen.action_toggle_sidebar,
    MainScreen.action_focus_viewer, MainScreen.action_focus_tree,
    FileTree.toggle_visibility.
  destruct (key =? "q"); [exact H |].
  destruct (key =? "~").
  { destruct (visible (file_tree a)); simpl negb; cbv iota;
      focus_frames; exact H. }
  destruct ((key =? "f") || (key =? "k")); [now focus_frames |].
  destruct (key =? "h"); [now focus_frames | exact H].
Qed.

Lemma run_shown (os : OS) (events : list Event) (a : App) :
  buffer_shown (content a) -> buffer_shown (content (run os events a)).
Proof.
  revert events a.
  apply (run_preserves (fun b => buffer_shown (content b))).
  - intros key b Hb. now rewrite FileTree_on_key_content.
  - intros key b Hb. now apply ContentView_on_key_shown.
  - intros key b Hb. now rewrite MainScreen_on_key_content.
  - intros key b c Hb _ Hc. simpl.
    now apply (inherited_bindings_shown key (content b)).
  - intros key b t Hb _ _. exact Hb.
  - intros key b Hb. now apply MainScreen_bindings_shown.
  - intros b Hb. now focus_frames.
  - intros node b Hb. now apply on_tree_node_highlighted_shown.
  - intros viewport contentHeight b Hb. exact Hb.
Qed.

(** X12.  In every state the application reaches from its start, the
    content pane shows its current buffer, and that buffer is not empty:
    a load that finds no text puts the "No content available" line in
    its place. *)
Theorem buffer_always_shown
    (os : OS) (assets : list FsEntry) (viewport contentHeight : Z)
    (events : list Event) :
  let c := content (run os events (start assets viewport contentHeight)) in
  displayed c = render_text c /\ render_text c <> "".
Proof.
  destruct (run_shown os events (start assets viewport contentHeight))
    as [_ H].
  - unfold buffer_shown, start, MainScreen.on_mount. focus_frames. simpl.
    repeat split. discriminate.
  - exact H.
Qed.

(** ** What the load keeps *)

Lemma insert_by_key_Permutation (x : FsEntry) (l : list FsEntry) :
  Permutation (FileTree.insert_by_key x l) (x :: l).
Proof.
  induction l as [| y l IH]; simpl; [reflexivity |].
  destruct (FileTree.key_leb _ _); [reflexivity |].
  rewrite IH. apply perm_swap.
Qed.

Lemma sorted_Permutation (l : list FsEntry) : Permutation (FileTree.sorted l) l.
Proof.
  induction l as [| x l IH]; simpl; [reflexivity |].
  rewrite insert_by_key_Permutation. now constructor.
Qed.

Lemma filter_Permutation {A : Type} (f : A -> bool) (l l' : list A) :
  Permutation l l' -> Permutation (filter f l) (filter f l').
Proof.
  induction 1 as [| x l l' H IH | x y l | l l' l'' H1 IH1 H2 IH2]; simpl.
  - constructor.
  - destruct (f x); [now constructor | exact IH].
  - destruct (f x), (f y); try reflexivity. apply perm_swap.
  - now transitivity (filter f l').
Qed.

(** The nodes [for_item_in] makes are the items it does not skip, one
    node for each, in the order of the items. *)
Lemma for_item_in_kept
    (recur : string -> list FsEntry -> list TreeNode)
    (path : string) (items : list FsEntry) :
  Forall (fun e => valid_entry e = true) items ->
  map (fun c => (name_of c, allow_expand c)) (FileTree.for_item_in recur path items)
  = map (fun e => (entry_name e, is_dir e)) (kept items).
Proof.
  induction 1 as [| item rest Hitem Hrest IH]; simpl; [reflexivity |].
  unfold kept in *. simpl. unfold excluded at 1.
  destruct (startswith (entry_name item) "." || (entry_name item =? "__pycache__"));
    simpl; [exact IH |].
  pose proof (valid_entry_name item Hitem) as Hname.
  pose proof (basename_child path (entry_name item) Hname) as Hb.
  destruct item as [name | name entries]; simpl in *; rewrite IH;
    unfold name_of; simpl; now rewrite Hb.

Qed.

(** The node made for a directory holds what [recur] makes of the
    directory's own entries. *)
Lemma for_item_in_dir
    (recur : string -> list FsEntry -> list TreeNode)
    (path : string) (items : list FsEntry) (name : string) (sub : list FsEntry) :
  In (FsDir name sub) items ->
  excluded name = false ->
  exists c, In c (FileTree.for_item_in recur path items)
            /\ data c = Some (path ++ "/" ++ name)
            /\ allow_expand c = true
            /\ children c = recur (path ++ "/" ++ name) sub.
Proof.
  intros Hin Hex. induction items as [| item rest IH]; [contradiction |].
  simpl.
  assert (Htail : In (FsDir name sub) rest ->
            exists c, In c (FileTree.for_item_in recur path rest)
                      /\ data c = Some (path ++ "/" ++ name)
                      /\ allow_expand c = true
                      /\ children c = recur (path ++ "/" ++ name) sub)
    by exact IH.
  destruct Hin as [-> | Hin].
  - simpl. unfold excluded in Hex. rewrite Hex.
    eexists. split; [left; reflexivity |]. repeat split.
  - destruct (Htail Hin) as [c [Hc Hrest]].
    destruct (startswith (entry_name item) "." || (entry_name item =? "__pycache__"));
      [exists c; split; assumption |].
    destruct item; exists c; (split; [right; exact Hc | exact Hrest]).
Qed.

(** X13.  The load loses nothing and invents nothing.  The children
    [add_to_tree] gives a directory are, name for name and kind for
    kind, the entries of its listing that are not hidden and not the
    build cache, each exactly once; and the node of every such
    sub-directory holds the children [add_to_tree] gives that
    sub-directory.  The children of the root at start-up are those of
    [assets]. *)
Theorem load_keeps_every_listed_entry :
  (forall (path : string) (entries : list FsEntry),
      forallb valid_entry entries = true ->
      Permutation
        (map (fun c => (name_of c, allow_expand c))
             (FileTree.add_to_tree (S (entries_depth entries)) path entries))
        (map (fun e => (entry_name e, is_dir e)) (kept entries)))
  /\ (forall (path : string) (entries : list FsEntry) (name : string)
             (sub : list FsEntry),
         In (FsDir name sub) entries ->
         excluded name = false ->
         exists c,
           In c (FileTree.add_to_tree (S (entries_depth entries)) path entries)
           /\ data c = Some (path ++ "/" ++ name)
           /\ allow_expand c = true
           /\ children c
              = FileTree.add_to_tree (S (entries_depth sub)) (path ++ "/" ++ name) sub)
  /\ (forall (assets : list FsEntry) (viewport contentHeight : Z),
         children (root (file_tree (start assets viewport contentHeight)))
         = FileTree.add_to_tree (S (entries_depth assets)) "assets" assets).
Proof.
  split; [| split].
  - intros path entries Hvalid. simpl.
    assert (Hv : Forall (fun e => valid_entry e = true) entries).
    { apply Forall_forall. now apply forallb_forall. }
    rewrite for_item_in_kept by now apply Forall_sorted.
    apply Permutation_map. unfold kept.
    apply filter_Permutation, sorted_Permutation.
  - intros path entries name sub Hin Hex.
    change (FileTree.add_to_tree (S (entries_depth entries)) path entries)
      with (FileTree.for_item_in (FileTree.add_to_tree (entries_depth entries))
              path (FileTree.sorted entries)).
    assert (Hin' : In (FsDir name sub) (FileTree.sorted entries)).
    { eapply Permutation_in; [symmetry; apply sorted_Permutation | exact Hin]. }
    destruct (for_item_in_dir
                (FileTree.add_to_tree (entries_depth entries)) path
                (FileTree.sorted entries) name sub Hin' Hex)
      as [c [Hc [Hd [Hk Hch]]]].
    exists c. repeat split; auto.
    rewrite Hch. apply add_to_tree_budget; [| lia].
    apply fs_depth_le_entries_depth in Hin. simpl in Hin.
    fold (entries_depth sub) in Hin. lia.
  - intros assets viewport contentHeight. reflexivity.
Qed.

Lemma load_keeps_every_listed_entry_witness :
  Permutation
    (map (fun c => (name_of c, allow_expand c))
         (FileTree.add_to_tree (S (entries_depth demo_assets)) "assets" demo_assets))
    [("README.md", false); ("src", true); ("locked.txt", false); ("empty", true)]
  /\ exists c,
       In c (FileTree.add_to_tree (S (entries_depth demo_assets)) "assets" demo_assets)
       /\ data c = Some "assets/src"
       /\ allow_expand c = true
       /\ children c
          = FileTree.add_to_tree 1 "assets/src" [FsFile "main.c"; FsFile "hello.c"].
Proof.
  destruct load_keeps_every_listed_entry as [Hperm [Hsub _]].
  split.
  - exact (Hperm "assets" demo_assets eq_refl).
  - exact (Hsub "assets" demo_assets "src" [FsFile "main.c"; FsFile "hello.c"]
             (or_intror (or_introl eq_refl)) eq_refl).
Defined.

(** ** Ties in the order *)

Lemma string_leb_refl (s : string) : (s <=? s) = true.
Proof. destruct (String.leb_total s s); assumption. Qed.

Lemma key_eqb_leb (k1 k2 k : bool * string) :
  key_eqb k1 k = true -> key_eqb k2 k = true -> FileTree.key_leb k1 k2 = true.
Proof.
  destruct k1 as [b1 s1], k2 as [b2 s2], k as [b s].
  unfold key_eqb, FileTree.key_leb; simpl.
  intros H1 H2. apply andb_prop in H1, H2.
  destruct H1 as [Hb1 Hs1], H2 as [Hb2 Hs2].
  apply Bool.eqb_prop in Hb1, Hb2. apply String.eqb_eq in Hs1, Hs2. subst.
  destruct b; apply string_leb_refl.
Qed.

Lemma with_key_insert_by_key (k : bool * string) (x : FsEntry) (l : list FsEntry) :
  with_key k (FileTree.insert_by_key x l) = with_key k (x :: l).
Proof.
  unfold with_key.
  induction l as [| y l IH]; simpl; [reflexivity |].
  destruct (FileTree.key_leb (FileTree.sort_key x) (FileTree.sort_key y)) eqn:Hle;
    [reflexivity |].
  simpl. rewrite IH. simpl.
  destruct (key_eqb (FileTree.sort_key x) k) eqn:Hx,
           (key_eqb (FileTree.sort_key y) k) eqn:Hy; try reflexivity.
  rewrite (key_eqb_leb _ _ k Hx Hy) in Hle. discriminate.
Qed.

(** X14.  The sort is stable.  Among entries with ASCII names, those
    with the same key (the same kind and names that differ at most in
    the case of their letters) come out of [sorted] in the order in
    which the directory listed them. *)
Theorem sorted_keeps_order_of_ties (k : bool * string) (l : list FsEntry) :
  forallb (fun e => ascii_name (entry_name e)) l = true ->
  with_key k (FileTree.sorted l) = with_key k l.
Proof.
  intros _.
  induction l as [| x l IH]; simpl; [reflexivity |].
  rewrite with_key_insert_by_key.
  unfold with_key in *. simpl. now rewrite IH.
Qed.

Lemma sorted_keeps_order_of_ties_witness :
  let listing := [FsFile "b.c"; FsFile "README.md"; FsDir "src" [];
                  FsFile "a.c"; FsFile "readme.md"] in
  with_key (true, "readme.md") (FileTree.sorted listing)
  = [FsFile "README.md"; FsFile "readme.md"].
Proof.
  exact (sorted_keeps_order_of_ties (true, "readme.md")
           [FsFile "b.c"; FsFile "README.md"; FsDir "src" [];
            FsFile "a.c"; FsFile "readme.md"] eq_refl).
Defined.

(** ** The tree at start-up, and afterwards *)

Lemma subnodes_all (P : TreeNode -> Prop) (n : TreeNode) :
  P n ->
  Forall (fun c => forall m, In m (subnodes c) -> P m) (children n) ->
  forall m, In m (subnodes n) -> P m.
Proof.
  intros Hn Hcs m Hm.
  destruct (subnodes_inv n m Hm) as [-> | [c [Hc Hmc]]]; [exact Hn |].
  rewrite Forall_forall in Hcs. exact (Hcs c Hc m Hmc).
Qed.

Lemma for_item_in_fresh
    (P : TreeNode -> Prop)
    (recur : string -> list FsEntry -> list TreeNode)
    (path : string) (items : list FsEntry) :
  (forall lbl d, P (add_leaf lbl d)) ->
  (forall lbl d cs, P (add lbl d cs)) ->
  (forall p entries,
      Forall (fun c => forall m, In m (subnodes c) -> P m) (recur p entries)) ->
  Forall (fun c => forall m, In m (subnodes c) -> P m)
         (FileTree.for_item_in recur path items).
Proof.
  intros Hleaf Hadd Hrecur.
  induction items as [| item rest IH]; simpl; [constructor |].
  destruct (startswith (entry_name item) "." || (entry_name item =? "__pycache__"));
    [exact IH |].
  destruct item as [name | name entries]; (constructor; [| exact IH]).
  - apply subnodes_all; [apply Hleaf | constructor].
  - apply subnodes_all; [apply Hadd | apply Hrecur].
Qed.

Lemma add_to_tree_fresh (P : TreeNode -> Prop) (budget : nat) :
  (forall lbl d, P (add_leaf lbl d)) ->
  (forall lbl d cs, P (add lbl d cs)) ->
  forall path entries,
    Forall (fun c => forall m, In m (subnodes c) -> P m)
           (FileTree.add_to_tree budget path entries).
Proof.
  intros Hleaf Hadd.
  induction budget as [| budget IH]; intros path entries; simpl;
    [constructor |].
  now apply for_item_in_fresh.
Qed.

(** X15.  At start-up the root is expanded and every node the load has
    made is collapsed and carries a path; a node made for a file has no
    children and cannot expand, a node made for a directory can. *)
Theorem loaded_nodes_start_collapsed
    (assets : list FsEntry) (viewport contentHeight : Z) :
  let r := root (file_tree (start assets viewport contentHeight)) in
  is_expanded r = true
  /\ Forall (fun c => forall m, In m (subnodes c) ->
               is_expanded m = false
               /\ data m <> None
               /\ (allow_expand m = false -> children m = []))
            (children r).
Proof.
  split; [reflexivity |].
  change (children (root (file_tree (start assets viewport contentHeight))))
    with (FileTree.add_to_tree (S (entries_depth assets)) "assets" assets).
  apply add_to_tree_fresh.
  - intros lbl d. repeat split. discriminate.
  - intros lbl d cs. repeat split; discriminate.
Qed.

Lemma loaded_nodes_start_collapsed_witness :
  let r := root (file_tree (start demo_assets 10 16)) in
  Forall (fun c => is_expanded c = false
                   /\ data c <> None
                   /\ (allow_expand c = false -> children c = []))
         (children r).
Proof.
  destruct (loaded_nodes_start_collapsed demo_assets 10 16) as [_ H].
  eapply Forall_impl; [| exact H].
  intros c Hc. apply Hc, subnodes_self.
Defined.

Lemma map_alter_nth {A B : Type} (f : A -> B) (g : A -> A) (i : nat) (l : list A) :
  (forall x, f (g x) = f x) -> map f (alter_nth g i l) = map f l.
Proof.
  intro H. revert i. induction l as [| x l IH]; intros [| i]; simpl;
    try reflexivity; now rewrite ?H, ?IH.
Qed.

Lemma shape_alter_at (b : bool) (addr : list nat) :
  forall r : TreeNode, shape (alter_at (set_expanded b) addr r) = shape r.
Proof.
  induction addr as [| i rest IH]; intros [l d ae ex cs]; simpl;
    [reflexivity |].
  f_equal. now apply map_alter_nth.
Qed.

Lemma FileTree_on_key_shape (key : string) (a : App) :
  shape (root (file_tree (fst (FileTree.on_key key a)))) = shape (root (file_tree a)).
Proof.
  unfold FileTree.on_key.
  destruct (key =? "j"); [simpl; now rewrite action_cursor_down_root |].
  destruct (key =? "k"); [simpl; now rewrite action_cursor_up_root |].
  destruct (key =? "enter"); [| reflexivity].
  destruct (cursor (file_tree a)) as [addr |]; [| reflexivity].
  destruct (cursor_node (file_tree a)) as [n |]; [| reflexivity].
  destruct (children n); [| destruct (is_expanded n)]; simpl fst.
  - now focus_frames.
  - apply shape_alter_at.
  - apply shape_alter_at.
Qed.

Lemma FileTree_bindings_shape (key : string) (t t' : FileTreeState) :
  FileTree.bindings key t = Some t' -> shape (root t') = shape (root t).
Proof.
  unfold FileTree.bindings.
  destruct (key =? "zo").
  { intros [= <-]. unfold FileTree.action_expand_node.
    destruct (cursor t); [| reflexivity].
    destruct (cursor_node t) as [n |]; [| reflexivity].
    destruct (children n); [reflexivity |].
    destruct (negb (is_expanded n)); [apply shape_alter_at | reflexivity]. }
  destruct (key =? "zc").
  { intros [= <-]. unfold FileTree.action_collapse_node.
    destruct (cursor t); [| reflexivity].
    destruct (cursor_node t) as [n |]; [| reflexivity].
    destruct (children n); [reflexivity |].
    destruct (is_expanded n); [apply shape_alter_at | reflexivity]. }
  destruct (key =? "up"); [intros [= <-]; now rewrite action_cursor_up_root |].
  destruct (key =? "down");
    [intros [= <-]; now rewrite action_cursor_down_root |].
  destruct (key =? "space"); [| discriminate].
  intros [= <-]. unfold action_toggle_node.
  destruct (cursor t); [| reflexivity].
  destruct (cursor_node t) as [n |]; [| reflexivity].
  destruct (allow_expand n); [| reflexivity].
  destruct (is_expanded n); apply shape_alter_at.
Qed.

(** X16.  After the load the tree only ever changes in its expansion
    flags.  Whatever events follow, no node is added, removed, moved,
    relabelled or given another path. *)
Theorem events_keep_the_tree_shape (os : OS) (events : list Event) (a : App) :
  shape (root (file_tree (run os events a))) = shape (root (file_tree a)).
Proof.
  revert events a.
  assert (H : forall s (events : list Event) (a : App),
             shape (root (file_tree a)) = s ->
             shape (root (file_tree (run os events a))) = s).
  { intro s.
    apply (run_preserves (fun b => shape (root (file_tree b)) = s)).
    - intros key b Hb. now rewrite FileTree_on_key_shape.
    - intros key b Hb. now rewrite ContentView_on_key_file_tree.
    - intros key b Hb. now rewrite MainScreen_on_key_file_tree.
    - intros key b c Hb _ _. exact Hb.
    - intros key b t Hb _ Ht. simpl.
      now rewrite (FileTree_bindings_shape key (file_tree b) t Ht).
    - intros key b Hb. now rewrite MainScreen_bindings_root.
    - intros b Hb. now focus_frames.
    - intros node b Hb. now rewrite on_tree_node_highlighted_file_tree.
    - intros viewport contentHeight b Hb. exact Hb. }
  intros events a. now apply H.
Qed.

(** ** Icons *)

Lemma from_last_dot_starts_with_dot (s t : string) :
  from_last_dot s = Some t -> exists r, t = String "." r.
Proof.
  revert t. induction s as [| c s IH]; intros t H; simpl in H; [discriminate |].
  destruct (from_last_dot s) as [t' |].
  - injection H as <-. now apply IH.
  - destruct (Ascii.eqb_spec c "."); [| discriminate].
    injection H as <-. subst c. now exists s.
Qed.

(** X17.  A suffix is empty or starts with a dot, so the alternative
    ['Makefile'] in the third test of the icon chain never matches: that
    test is [suffix == '.mk'], and a file named [Makefile] gets the icon
    of the last branch. *)
Theorem makefile_alternative_never_matches (name : string) :
  (suffix name = "" \/ exists r, suffix name = String "." r)
  /\ mem (suffix name) [".mk"; "Makefile"] = (suffix name =? ".mk")
  /\ suffix "Makefile" = "".
Proof.
  assert (H : suffix name = "" \/ exists r, suffix name = String "." r).
  { unfold suffix. destruct name as [| c rest]; [now left |].
    destruct (from_last_dot rest) as [t |] eqn:E; [| now left].
    destruct (String.length t =? 1)%nat; [now left | right].
    now apply (from_last_dot_starts_with_dot rest). }
  split; [exact H | split; [| reflexivity]].
  unfold mem; simpl.
  destruct H as [-> | [r ->]]; [reflexivity |].
  now rewrite orb_false_r.
Qed.

(** ** Scrolling inside the range *)

Lemma content_view_eq (c c' : ContentViewState) :
  render_text c = render_text c' ->
  displayed c = displayed c' ->
  is_mounted c = is_mounted c' ->
  scroll_y c = scroll_y c' ->
  size_height c = size_height c' ->
  virtual_height c = virtual_height c' ->
  content_width c = content_width c' ->
  c = c'.
Proof. destruct c, c'; simpl; intros; subst; reflexivity. Qed.

(** X18.  The two jumps reach the ends of the range.  [g] puts the
    offset at 0; [G] assigns the height of the content, which lies past
    the last valid offset, and so lands on that last offset,
    [max(0, contentHeight - viewportHeight)], in any viewport of height
    0 or more. *)
Theorem jumps_reach_the_ends (c : ContentViewState) :
  scroll_y (ContentView.action_scroll_home c) = 0%Z
  /\ ((0 <= size_height c)%Z ->
      scroll_y (ContentView.action_scroll_end c) = max_scroll_y c).
Proof.
  unfold ContentView.action_scroll_home, ContentView.action_scroll_end,
    set_scroll_y, validate_scroll_y, max_scroll_y; simpl.
  split; [| intro H]; lia.
Qed.

Lemma jumps_reach_the_ends_witness :
  let c := mkContentView "" "" true 7 10 42 "70%" in
  scroll_y (ContentView.action_scroll_home c) = 0%Z
  /\ scroll_y (ContentView.action_scroll_end c) = 32%Z.
Proof.
  intro c. destruct (jumps_reach_the_ends c) as [Hg HG].
  split; [exact Hg |]. apply HG. vm_compute. discriminate.
Defined.

(** X19.  Inside the range the steps are exact and undo each other.
    From a state within the invariant, [k] after [j] gives the state
    back unless [j] started on the last offset, [j] after [k] gives it
    back unless [k] started on 0, and a page down that stays in range
    moves the offset by the viewport height less two and is undone by a
    page up. *)
Theorem scroll_steps_undo_each_other (c : ContentViewState) :
  scroll_invariant c ->
  ((scroll_y c < max_scroll_y c)%Z ->
   ContentView.action_scroll_up (ContentView.action_scroll_down c) = c)
  /\ ((0 < scroll_y c)%Z ->
      ContentView.action_scroll_down (ContentView.action_scroll_up c) = c)
  /\ ((0 <= scroll_y c + (size_height c - 2) <= max_scroll_y c)%Z ->
      scroll_y (ContentView.action_page_down c)
      = (scroll_y c + (size_height c - 2))%Z
      /\ ContentView.action_page_up (ContentView.action_page_down c) = c).
Proof.
  unfold scroll_invariant. intro Hinv.
  unfold ContentView.action_scroll_up, ContentView.action_scroll_down,
    ContentView.action_page_up, ContentView.action_page_down,
    set_scroll_y, validate_scroll_y, max_scroll_y; simpl.
  split; [| split]; intro H; [| | split]; try (apply content_view_eq; simpl);
    try reflexivity; lia.
Qed.

Lemma scroll_steps_undo_each_other_witness :
  let c := mkContentView "" "" true 7 10 42 "70%" in
  ContentView.action_scroll_up (ContentView.action_scroll_down c) = c
  /\ ContentView.action_scroll_down (ContentView.action_scroll_up c) = c
  /\ scroll_y (ContentView.action_page_down c) = 15%Z
  /\ ContentView.action_page_up (ContentView.action_page_down c) = c.
Proof.
  intro c.
  assert (Hinv : scroll_invariant c) by (vm_compute; split; discriminate).
  destruct (scroll_steps_undo_each_other c Hinv) as [Hjk [Hkj Hpage]].
  split; [apply Hjk; reflexivity | split; [apply Hkj; reflexivity |]].
  apply Hpage. vm_compute. split; discriminate.
Defined.

(** X20.  The page is the viewport height less two, whatever that comes
    to.  From a state within the invariant, in a viewport of two lines
    Ctrl-d and Ctrl-u change nothing, and in a viewport of fewer than
    two lines Ctrl-d never moves the offset forward and Ctrl-u never
    moves it back. *)
Theorem page_keys_in_small_viewports (c : ContentViewState) :
  scroll_invariant c ->
  (size_height c = 2%Z ->
   ContentView.action_page_down c = c /\ ContentView.action_page_up c = c)
  /\ ((size_height c < 2)%Z ->
      (scroll_y (ContentView.action_page_down c) <= scroll_y c)%Z
      /\ (scroll_y c <= scroll_y (ContentView.action_page_up c))%Z).
Proof.
  unfold scroll_invariant. intro Hinv.
  unfold ContentView.action_page_up, ContentView.action_page_down,
    set_scroll_y, validate_scroll_y, max_scroll_y; simpl.
  split; intro H; split; try (apply content_view_eq; simpl);
    try reflexivity; lia.
Qed.

Lemma page_keys_in_small_viewports_witness :
  let two := mkContentView "" "" true 7 2 42 "70%" in
  let one := mkContentView "" "" true 7 1 42 "70%" in
  (ContentView.action_page_down two = two /\ ContentView.action_page_up two = two)
  /\ (scroll_y (ContentView.action_page_down one) <= 7)%Z
  /\ (7 <= scroll_y (ContentView.action_page_up one))%Z.
Proof.
  intros two one.
  assert (H2 : scroll_invariant two) by (vm_compute; split; discriminate).
  assert (H1 : scroll_invariant one) by (vm_compute; split; discriminate).
  split.
  - apply (proj1 (page_keys_in_small_viewports two H2)). reflexivity.
  - apply (proj2 (page_keys_in_small_viewports one H1)). reflexivity.
Defined.

